(** * The [compose_whitelist] resource of terraform-provider-compose

    A shallow embedding of the resource's create / read / delete / import
    entry points and of the polling predicate they share
    ([whitelistCompletedRefreshFunc]), followed by the properties of the
    eventual-consistency reconciler that are stated about them.

    Conventions of the embedding:
    - Go strings are [String.string] (a sequence of bytes);
    - [*schema.ResourceData] is a record holding the resource identifier and
      the attribute map; the Go functions mutate it through a pointer, the
      embedded functions return the updated record;
    - the remote Compose API is an oracle: what it answers may depend on the
      clock and on every call made so far; each call is added to a trace
      together with its time and the answer it got;
    - [time.Duration] is an integer number of nanoseconds; a call to the
      service takes no time, only sleeping moves the clock. *)

From Stdlib Require Import ZArith Ascii String List Lia Bool.
From stdpp Require Import base option list strings gmap.

Local Open Scope string_scope.
Local Open Scope Z_scope.

(** ** Strings *)

Module gostrings.

(** [strings.Split(s, sep)] for a separator of one byte, which is how the
    resource calls it ([sep = "@"]): the fields of [s] between
    occurrences of [sep]; a string without [sep] is its own single
    field. *)
Fixpoint Split (s : string) (sep : ascii) : list string :=
  match s with
  | EmptyString => [EmptyString]
  | String c s' =>
      if Ascii.eqb c sep then EmptyString :: Split s' sep
      else match Split s' sep with
           | f :: fs => String c f :: fs
           | [] => [String c EmptyString]
           end
  end.

(** Does the byte [c] occur in [s]? *)
Fixpoint ContainsByte (s : string) (c : ascii) : bool :=
  match s with
  | EmptyString => false
  | String c' s' => Ascii.eqb c' c || ContainsByte s' c
  end.

End gostrings.

(** ** Data model *)

(** [composeapi.Whitelist]: one entry of a deployment's whitelist. *)
Record Whitelist : Type := mkWhitelist {
  ID : string;
  IP : string;
  Description : string
}.

(** Go [error] values that reach the resource's callers. *)
Inductive error : Type :=
| New (text : string)
    (** [errors.New(text)] *)
| Errorf (format : string) (errs : list string)
    (** [fmt.Errorf(format, errs)], [errs] being the messages of the API
        errors passed as its argument *)
| ApiError (msg : string)
    (** an error produced inside the API client, with its message *)
| TimeoutError (timeout : Z).
    (** the poller's confirmation-timed-out error *)

(** The [[]error] of a failed API call, as the messages of its errors: it
    is non-nil and [err[0]] is its head. *)
Definition Errs : Type := (string * list string)%type.

Definition errsList (errs : Errs) : list string := fst errs :: snd errs.

(** [*schema.ResourceData] restricted to what the resource touches. *)
Record ResourceData : Type := mkResourceData {
  Id : string;
  attrs : gmap string string
}.

(** [d.Get(key).(string)]: an attribute that was never set reads as the
    zero value of [schema.TypeString]. *)
Definition Get (d : ResourceData) (key : string) : string :=
  default EmptyString (attrs d !! key).

(** [d.Set(key, value)] *)
Definition Set_ (d : ResourceData) (key value : string) : ResourceData :=
  {| Id := Id d; attrs := <[key := value]> (attrs d) |}.

(** [d.SetId(v)] *)
Definition SetId (d : ResourceData) (v : string) : ResourceData :=
  {| Id := v; attrs := attrs d |}.

(** ** The remote service and the clock *)

(** One call of the API client, with the answer it received. *)
Inductive Event : Type :=
| AddCall (deploymentID : string) (entry : Whitelist) (r : option Errs)
| DeleteCall (deploymentID whitelistID : string) (r : option Errs)
| GetCall (deploymentID : string) (r : Errs + list Whitelist).

(** The world a call runs in: the time elapsed (in nanoseconds) and the
    calls made so far, most recent first, each with the time it was made. *)
Record World : Type := mkWorld {
  now : Z;
  trace : list (Z * Event)
}.

(** [*composeapi.Client]: the remote service seen through the client.  An
    answer is [None] / [inr listing] on success and carries the errors
    otherwise. *)
Record Client : Type := mkClient {
  addAnswer : World -> string -> Whitelist -> option Errs;
  deleteAnswer : World -> string -> string -> option Errs;
  getAnswer : World -> string -> Errs + list Whitelist
}.

Definition record (e : Event) (w : World) : World :=
  {| now := now w; trace := (now w, e) :: trace w |}.

(** [time.Sleep(d)] *)
Definition sleep (d : Z) (w : World) : World :=
  {| now := now w + d; trace := trace w |}.

(** Computations that read the world, may change it, and are run with a
    bound on the number of polls ([None]: the bound was too small). *)
Definition M (A : Type) : Type := World -> option (A * World).

Definition ret {A : Type} (a : A) : M A := fun w => Some (a, w).

Definition bind {A B : Type} (m : M A) (k : A -> M B) : M B :=
  fun w => match m w with
           | Some (a, w') => k a w'
           | None => None
           end.

Notation "x <~ m ;; k" := (bind m (fun x => k))
  (at level 20, m at level 99, k at level 200, only parsing).

Definition AddWhitelistForDeployment (client : Client) (deploymentID : string)
    (entry : Whitelist) : M (option Errs) :=
  fun w => let r := addAnswer client w deploymentID entry in
           Some (r, record (AddCall deploymentID entry r) w).

Definition DeleteWhitelistForDeployment (client : Client)
    (deploymentID whitelistID : string) : M (option Errs) :=
  fun w => let r := deleteAnswer client w deploymentID whitelistID in
           Some (r, record (DeleteCall deploymentID whitelistID r) w).

Definition GetWhitelistForDeployment (client : Client) (deploymentID : string)
    : M (Errs + list Whitelist) :=
  fun w => let r := getAnswer client w deploymentID in
           Some (r, record (GetCall deploymentID r) w).

(** ** The polling predicate *)

(** [resource.StateRefreshFunc]: [func() (interface{}, string, error)].  The
    only values the resource's predicates return are [nil] and an entry's
    identifier, hence [option string] for the [interface{}]. *)
Definition StateRefreshFunc : Type := M (option string * string * option error).

(** The [for ... range] loops of the resource all stop at the first entry
    that satisfies their test. *)
Definition matchesIP (whitelistip : string) (e : Whitelist) : bool :=
  String.eqb (IP e) whitelistip.

Definition matchesDescription (description : string) (e : Whitelist) : bool :=
  String.eqb (Description e) description.

Definition matchesID (id : string) (e : Whitelist) : bool :=
  String.eqb (ID e) id.

(** What the closure of [whitelistCompletedRefreshFunc] returns once the
    listing call has answered [r]. *)
Definition refreshResult (whitelistip : string) (r : Errs + list Whitelist)
    : option string * string * option error :=
  match r with
  | inl err => (None, "", Some (ApiError (fst err)))
  | inr whitelist =>
      match find (matchesIP whitelistip) whitelist with
      | Some whitelistEntry => (Some (ID whitelistEntry), "existing", None)
      | None => (None, "", None)
      end
  end.

Definition whitelistCompletedRefreshFunc (client : Client)
    (deploymentid whitelistip : string) : StateRefreshFunc :=
  whitelist <~ GetWhitelistForDeployment client deploymentid ;;
  ret (refreshResult whitelistip whitelist).

(** ** The reconciler *)

Definition Second : Z := 1000000000.
Definition Minute : Z := 60 * Second.

(** [resource.StateChangeConf] with the fields the resource fills in. *)
Record StateChangeConf : Type := mkStateChangeConf {
  Pending : list string;
  Target : list string;
  Refresh : StateRefreshFunc;
  Timeout : Z;
  Delay : Z;
  MinTimeout : Z
}.

(** The spec's [PollState]. *)
Inductive PollState : Type := pending | settled.

Section Reconciler.

(** How long the poller would like to wait before retry number [k]; it
    never waits less than [MinTimeout]. *)
Variable backoff : nat -> Z.

(** Modelled from the spec: how [WaitForState] reads one answer of the
    predicate; the function belongs to the Terraform helper library
    [helper/resource], which is not among the sources.  With a target
    state the poll is settled when the predicate reports that state; with
    no target state (the delete path, where settled means absent) it is
    settled when the predicate reports nothing. *)
Definition classify (conf : StateChangeConf) (v : option string)
    (state : string) : PollState :=
  match Target conf with
  | [] => match v with None => settled | Some _ => pending end
  | _ :: _ => if bool_decide (state ∈ Target conf) then settled else pending
  end.

(** Modelled from the spec: the polling loop of [WaitForState], which is
    not among the sources.  Each round invokes the predicate once; an
    error of the predicate is returned at once; a settled answer returns
    the value the predicate carried; a pending answer waits at least the
    minimum interval and retries, unless the retry would fall after
    [deadline], in which case the wait ends at the deadline with a timeout
    error.  [k] counts the rounds made so far. *)
Fixpoint refreshLoop (conf : StateChangeConf) (fuel k : nat) (deadline : Z)
    : M (option string * option error) :=
  match fuel with
  | O => fun _ => None
  | S fuel' =>
      r <~ Refresh conf ;;
      let '(v, state, err) := r in
      match err with
      | Some e => ret (v, Some e)
      | None =>
          match classify conf v state with
          | settled => ret (v, None)
          | pending =>
              fun w =>
                let wait := Z.max (MinTimeout conf) (backoff k) in
                if deadline <? now w + wait
                then Some ((None, Some (TimeoutError (Timeout conf))),
                           sleep (deadline - now w) w)
                else refreshLoop conf fuel' (S k) deadline (sleep wait w)
          end
      end
  end.

(** Modelled from the spec: [StateChangeConf.WaitForState], not among the
    sources.  The first poll comes right after the initial delay; the
    whole wait never lasts longer than the timeout. *)
Definition WaitForState (conf : StateChangeConf) (fuel : nat)
    : M (option string * option error) :=
  fun w =>
    if Timeout conf <? Delay conf
    then Some ((None, Some (TimeoutError (Timeout conf))),
               sleep (Timeout conf) w)
    else refreshLoop conf fuel 0 (now w + Timeout conf)
           (sleep (Delay conf) w).

(** ** The resource's entry points *)

Definition resourceComposeWhitelistRead (d : ResourceData) (meta : Client)
    : M (ResourceData * option error) :=
  let client := meta in
  let deploymentID := Get d "deployment_id" in
  whitelist <~ GetWhitelistForDeployment client deploymentID ;;
  match whitelist with
  | inl errs =>
      ret (d, Some (Errorf "Error querying whitelist entry: %s" (errsList errs)))
  | inr whitelist =>
      match find (matchesID (Id d)) whitelist with
      | Some whitelistEntry =>
          let d := Set_ d "description" (Description whitelistEntry) in
          let d := Set_ d "ip" (IP whitelistEntry) in
          ret (d, None)
      | None => ret (SetId d "", None)
      end
  end.

Definition createConf (client : Client) (deploymentID ip : string)
    : StateChangeConf :=
  {| Pending := [];
     Target := ["existing"];
     Refresh := whitelistCompletedRefreshFunc client deploymentID ip;
     Timeout := 5 * Minute;
     Delay := 10 * Second;
     MinTimeout := 3 * Second |}.

Definition resourceComposeWhitelistCreate (fuel : nat) (d : ResourceData)
    (meta : Client) : M (ResourceData * option error) :=
  let client := meta in
  let deploymentID := Get d "deployment_id" in
  let ip := Get d "ip" in
  let description := Get d "description" in
  let whitelist := {| ID := ""; IP := ip; Description := description |} in
  errs <~ AddWhitelistForDeployment client deploymentID whitelist ;;
  match errs with
  | Some errs =>
      ret (d, Some (Errorf "Error adding whitelist entry: %s" (errsList errs)))
  | None =>
      let stateChangeConf := createConf client deploymentID ip in
      r <~ WaitForState stateChangeConf fuel ;;
      match snd r with
      | Some err => ret (d, Some err)
      | None =>
          newWhitelist <~ GetWhitelistForDeployment client deploymentID ;;
          match newWhitelist with
          | inl errs =>
              ret (d, Some (Errorf "Error querying whitelist entry: %s"
                              (errsList errs)))
          | inr newWhitelist =>
              match find (matchesDescription description) newWhitelist with
              | Some whitelistEntry =>
                  resourceComposeWhitelistRead (SetId d (ID whitelistEntry)) meta
              | None =>
                  ret (d, Some (New "Failed to find newly created whitelist entry"))
              end
          end
      end
  end.

Definition deleteConf (client : Client) (deploymentID ip : string)
    : StateChangeConf :=
  {| Pending := ["existing"];
     Target := [];
     Refresh := whitelistCompletedRefreshFunc client deploymentID ip;
     Timeout := 5 * Minute;
     Delay := 10 * Second;
     MinTimeout := 3 * Second |}.

Definition resourceComposeWhitelistDelete (fuel : nat) (d : ResourceData)
    (meta : Client) : M (ResourceData * option error) :=
  let client := meta in
  let deploymentID := Get d "deployment_id" in
  errs <~ DeleteWhitelistForDeployment client deploymentID (Id d) ;;
  match errs with
  | Some errs =>
      ret (d, Some (Errorf "Error deleting whitelist entry: %s" (errsList errs)))
  | None =>
      let stateChangeConf := deleteConf client deploymentID (Get d "ip") in
      r <~ WaitForState stateChangeConf fuel ;;
      match snd r with
      | Some err => ret (d, Some err)
      | None => ret (d, None)
      end
  end.

End Reconciler.

(** A Go call either returns or panics with a run-time error. *)
Inductive RuntimeError : Type :=
| IndexOutOfRange (index length : nat).

Inductive Outcome (A : Type) : Type :=
| Returns (a : A)
| Panics (e : RuntimeError).
Arguments Returns {A} a.
Arguments Panics {A} e.

(** The index expression [s[i]] on a slice. *)
Definition index {A : Type} (s : list A) (i : nat) : Outcome A :=
  match s !! i with
  | Some x => Returns x
  | None => Panics (IndexOutOfRange i (length s))
  end.

(** [resourceComposeWhitelistImport]: it returns the slice of results (or
    [nil]) and the error (or [nil]); the resource data it filled in is the
    element of the slice. *)
Definition resourceComposeWhitelistImport (d : ResourceData) (meta : Client)
    : M (Outcome (option (list ResourceData) * option error)) :=
  let client := meta in
  let s := gostrings.Split (Id d) "@" in
  match index s 0, index s 1 with
  | Returns deploymentID, Returns ip =>
      whitelist <~ GetWhitelistForDeployment client deploymentID ;;
      match whitelist with
      | inl errs =>
          ret (Returns (None, Some (Errorf "Error querying whitelist entry: %s"
                                      (errsList errs))))
      | inr whitelist =>
          match find (matchesIP ip) whitelist with
          | Some whitelistEntry =>
              let d := Set_ d "deployment_id" deploymentID in
              let d := Set_ d "description" (Description whitelistEntry) in
              let d := Set_ d "ip" (IP whitelistEntry) in
              let d := SetId d (ID whitelistEntry) in
              ret (Returns (Some [d], None))
          | None => ret (Returns (None, Some (Errorf "Whitelist item not found" [])))
          end
      end
  | Panics e, _ | _, Panics e => ret (Panics e)
  end.

(** How many listings of the whitelist a world has seen. *)
Definition isGetCall (e : Z * Event) : bool :=
  match snd e with GetCall _ _ => true | _ => false end.

Definition polls (w : World) : Z := Z.of_nat (length (filter isGetCall (trace w))).

(** [e] is the first entry of [l] that satisfies [p]: the entry a
    [for ... range] loop with test [p] stops at. *)
Definition firstSuch (p : Whitelist -> bool) (l : list Whitelist)
    (e : Whitelist) : Prop :=
  exists pre post, l = (pre ++ e :: post)%list /\ p e = true /\
                   forall x, x ∈ pre -> p x = false.


(** ** Reading a listing *)

(** How a configuration reads the listing [L] when the target IP is [ip]. *)
Definition readsAs (conf : StateChangeConf) (ip : string) (L : list Whitelist)
    : PollState :=
  let '(v, state, _) := refreshResult ip (inr L) in classify conf v state.

(** The events of a round that left the poll pending. *)
Definition pendingRound (conf : StateChangeConf) (dep ip : string)
    (ev : Z * Event) : Prop :=
  exists L, snd ev = GetCall dep (inr L) /\ readsAs conf ip L = pending.

(** ** Scenarios *)

(** The entry of the spec's scenario, and two entries that each share one
    field with it. *)
Definition officeEntry : Whitelist :=
  {| ID := "abc123"; IP := "10.0.0.0/24"; Description := "office" |}.

Definition labEntry : Whitelist :=
  {| ID := "a1"; IP := "10.0.0.0/24"; Description := "lab" |}.

Definition namesakeEntry : Whitelist :=
  {| ID := "b2"; IP := "192.168.0.0/16"; Description := "office" |}.

(** The resource data of [officeEntry] in deployment ["d1"]. *)
Definition officeData : ResourceData :=
  {| Id := "abc123";
     attrs := <["deployment_id" := "d1"]>
                (<["ip" := "10.0.0.0/24"]> (<["description" := "office"]> ∅)) |}.

(** The resource data handed to create: attributes set, no identifier yet. *)
Definition newOfficeData : ResourceData := SetId officeData "".

(** A service whose whitelist holds [officeEntry] and never changes. *)
Definition steadyClient : Client :=
  {| addAnswer := fun _ _ _ => None;
     deleteAnswer := fun _ _ _ => None;
     getAnswer := fun _ _ => inr [officeEntry] |}.

(** A service that accepts every write and lists [officeEntry] from the
    twelfth second on. *)
Definition lateClient : Client :=
  {| addAnswer := fun _ _ _ => None;
     deleteAnswer := fun _ _ _ => None;
     getAnswer := fun w _ => if now w <? 12 * Second then inr [] else inr [officeEntry] |}.

(** A service that accepts every write and whose whitelist is always empty. *)
Definition emptyClient : Client :=
  {| addAnswer := fun _ _ _ => None;
     deleteAnswer := fun _ _ _ => None;
     getAnswer := fun _ _ => inr [] |}.

(** A service that accepts every write and always lists one entry with the
    IP of [officeData] under another identifier. *)
Definition reusedClient : Client :=
  {| addAnswer := fun _ _ _ => None;
     deleteAnswer := fun _ _ _ => None;
     getAnswer := fun _ _ =>
       inr [{| ID := "zzz999"; IP := "10.0.0.0/24"; Description := "lab" |}] |}.

(** A service that accepts every write and always lists two entries: one
    with the IP of [officeData] and one with its description. *)
Definition namesakeClient : Client :=
  {| addAnswer := fun _ _ _ => None;
     deleteAnswer := fun _ _ _ => None;
     getAnswer := fun _ _ => inr [labEntry; namesakeEntry] |}.

(** A service that refuses every write and would fail every listing. *)
Definition refusingClient : Client :=
  {| addAnswer := fun _ _ _ => Some ("forbidden", []);
     deleteAnswer := fun _ _ _ => Some ("forbidden", []);
     getAnswer := fun _ _ => inl ("unreachable", []) |}.

(** A service that accepts writes and lists nothing until the twelfth
    second, when its listing starts to fail. *)
Definition failingClient : Client :=
  {| addAnswer := fun _ _ _ => None;
     deleteAnswer := fun _ _ _ => None;
     getAnswer := fun w _ => if now w <? 12 * Second then inr [] else inl ("unreachable", []) |}.

(** A service that accepts every write and lists [officeEntry], but fails
    every call made after three calls have been made. *)
Definition flakyClient : Client :=
  {| addAnswer := fun _ _ _ => None;
     deleteAnswer := fun _ _ _ => None;
     getAnswer := fun w _ =>
       if (length (trace w) <? 3)%nat then inr [officeEntry] else inl ("gone", []) |}.

(** ** Joining fields *)

(** [strings.Join(elems, sep)]: the elements with [sep] between them. *)
Fixpoint Join (elems : list string) (sep : string) : string :=
  match elems with
  | [] => EmptyString
  | [e] => e
  | e :: rest => e +:+ sep +:+ Join rest sep
  end.

(** How many times the byte [c] occurs in [s]. *)
Fixpoint CountByte (s : string) (c : ascii) : nat :=
  match s with
  | EmptyString => O
  | String c' s' => if Ascii.eqb c' c then S (CountByte s' c) else CountByte s' c
  end.

(** ** The vendored Spanner transaction messages

    [vendor/google.golang.org/genproto/googleapis/spanner/v1/transaction.pb.go]:
    the message types, their getters and the marshaler, unmarshaler and
    sizer of each oneof.  A pointer that may be nil is an [option]; a
    [[]byte] is a list of bytes, the nil slice being the empty list; the
    value of a oneof interface is [None] or one of its wrapper structs (the
    unexported marker method closes the interface, so the [default]
    branches of the type switches are never taken, and the wrappers are
    taken through non-nil pointers). *)

Module spanner.

Section Messages.

(** [google_protobuf3.Timestamp] and [google_protobuf2.Duration], declared
    in the ptypes packages. *)
Variables Timestamp Duration : Type.

Record TransactionOptions_ReadWrite : Type := mkTransactionOptions_ReadWrite {}.

Inductive isTransactionOptions_ReadOnly_TimestampBound : Type :=
| TransactionOptions_ReadOnly_Strong (Strong : bool)
| TransactionOptions_ReadOnly_MinReadTimestamp (MinReadTimestamp : option Timestamp)
| TransactionOptions_ReadOnly_MaxStaleness (MaxStaleness : option Duration)
| TransactionOptions_ReadOnly_ReadTimestamp (ReadTimestamp : option Timestamp)
| TransactionOptions_ReadOnly_ExactStaleness (ExactStaleness : option Duration).

Record TransactionOptions_ReadOnly : Type := mkTransactionOptions_ReadOnly {
  TimestampBound : option isTransactionOptions_ReadOnly_TimestampBound;
  ReturnReadTimestamp : bool
}.

Inductive isTransactionOptions_Mode : Type :=
| TransactionOptions_ReadWrite_ (ReadWrite : option TransactionOptions_ReadWrite)
| TransactionOptions_ReadOnly_ (ReadOnly : option TransactionOptions_ReadOnly).

Record TransactionOptions : Type := mkTransactionOptions {
  Mode : option isTransactionOptions_Mode
}.

Record Transaction : Type := mkTransaction {
  Id : list Byte.byte;
  ReadTimestamp : option Timestamp
}.

Inductive isTransactionSelector_Selector : Type :=
| TransactionSelector_SingleUse (SingleUse : option TransactionOptions)
| TransactionSelector_Id (Id : list Byte.byte)
| TransactionSelector_Begin (Begin : option TransactionOptions).

Record TransactionSelector : Type := mkTransactionSelector {
  Selector : option isTransactionSelector_Selector
}.

(** *** Getters (the receiver may be nil) *)

Definition TransactionOptions_GetMode (m : option TransactionOptions)
    : option isTransactionOptions_Mode :=
  match m with
  | Some m => Mode m
  | None => None
  end.

Definition TransactionOptions_GetReadWrite (m : option TransactionOptions)
    : option TransactionOptions_ReadWrite :=
  match TransactionOptions_GetMode m with
  | Some (TransactionOptions_ReadWrite_ x) => x
  | _ => None
  end.

Definition TransactionOptions_GetReadOnly (m : option TransactionOptions)
    : option TransactionOptions_ReadOnly :=
  match TransactionOptions_GetMode m with
  | Some (TransactionOptions_ReadOnly_ x) => x
  | _ => None
  end.

Definition TransactionOptions_ReadOnly_GetTimestampBound
    (m : option TransactionOptions_ReadOnly)
    : option isTransactionOptions_ReadOnly_TimestampBound :=
  match m with
  | Some m => TimestampBound m
  | None => None
  end.

Definition TransactionOptions_ReadOnly_GetStrong
    (m : option TransactionOptions_ReadOnly) : bool :=
  match TransactionOptions_ReadOnly_GetTimestampBound m with
  | Some (TransactionOptions_ReadOnly_Strong x) => x
  | _ => false
  end.

Definition TransactionOptions_ReadOnly_GetMinReadTimestamp
    (m : option TransactionOptions_ReadOnly) : option Timestamp :=
  match TransactionOptions_ReadOnly_GetTimestampBound m with
  | Some (TransactionOptions_ReadOnly_MinReadTimestamp x) => x
  | _ => None
  end.

Definition TransactionOptions_ReadOnly_GetMaxStaleness
    (m : option TransactionOptions_ReadOnly) : option Duration :=
  match TransactionOptions_ReadOnly_GetTimestampBound m with
  | Some (TransactionOptions_ReadOnly_MaxStaleness x) => x
  | _ => None
  end.

Definition TransactionOptions_ReadOnly_GetReadTimestamp
    (m : option TransactionOptions_ReadOnly) : option Timestamp :=
  match TransactionOptions_ReadOnly_GetTimestampBound m with
  | Some (TransactionOptions_ReadOnly_ReadTimestamp x) => x
  | _ => None
  end.

Definition TransactionOptions_ReadOnly_GetExactStaleness
    (m : option TransactionOptions_ReadOnly) : option Duration :=
  match TransactionOptions_ReadOnly_GetTimestampBound m with
  | Some (TransactionOptions_ReadOnly_ExactStaleness x) => x
  | _ => None
  end.

Definition TransactionOptions_ReadOnly_GetReturnReadTimestamp
    (m : option TransactionOptions_ReadOnly) : bool :=
  match m with
  | Some m => ReturnReadTimestamp m
  | None => false
  end.

Definition Transaction_GetId (m : option Transaction) : list Byte.byte :=
  match m with
  | Some m => Id m
  | None => []
  end.

Definition Transaction_GetReadTimestamp (m : option Transaction) : option Timestamp :=
  match m with
  | Some m => ReadTimestamp m
  | None => None
  end.

Definition TransactionSelector_GetSelector (m : option TransactionSelector)
    : option isTransactionSelector_Selector :=
  match m with
  | Some m => Selector m
  | None => None
  end.

Definition TransactionSelector_GetSingleUse (m : option TransactionSelector)
    : option TransactionOptions :=
  match TransactionSelector_GetSelector m with
  | Some (TransactionSelector_SingleUse x) => x
  | _ => None
  end.

Definition TransactionSelector_GetId (m : option TransactionSelector)
    : list Byte.byte :=
  match TransactionSelector_GetSelector m with
  | Some (TransactionSelector_Id x) => x
  | _ => []
  end.

Definition TransactionSelector_GetBegin (m : option TransactionSelector)
    : option TransactionOptions :=
  match TransactionSelector_GetSelector m with
  | Some (TransactionSelector_Begin x) => x
  | _ => None
  end.

(** *** The proto library

    The [proto.Message] values the oneof code hands to the library. *)
Inductive Message : Type :=
| MsgReadWrite (m : option TransactionOptions_ReadWrite)
| MsgReadOnly (m : option TransactionOptions_ReadOnly)
| MsgTransactionOptions (m : option TransactionOptions)
| MsgTimestamp (m : option Timestamp)
| MsgDuration (m : option Duration).

(** What the oneof code uses of [github.com/golang/protobuf/proto], which
    is not among the sources: the buffer and its encoders and decoders, the
    size functions, the wire types and the wire-type error.  An encoder
    takes the buffer and returns it with the item written; a decoder
    returns the item read, the error if any, and the buffer advanced;
    [DecodeMessage] is given per type of the fresh message it fills. *)
Record Proto : Type := mkProto {
  Buffer : Type;
  Err : Type;
  ErrInternalBadWireType : Err;
  WireVarint : Z;
  WireBytes : Z;
  Bytes : Buffer -> list Byte.byte;
  EncodeVarint : Z -> Buffer -> Buffer;
  EncodeMessage : Message -> Buffer -> option Err * Buffer;
  EncodeRawBytes : list Byte.byte -> Buffer -> Buffer;
  DecodeVarint : Buffer -> Z * option Err * Buffer;
  DecodeRawBytes : bool -> Buffer -> list Byte.byte * option Err * Buffer;
  DecodeMessage_ReadWrite : Buffer -> TransactionOptions_ReadWrite * option Err * Buffer;
  DecodeMessage_ReadOnly : Buffer -> TransactionOptions_ReadOnly * option Err * Buffer;
  DecodeMessage_TransactionOptions : Buffer -> TransactionOptions * option Err * Buffer;
  DecodeMessage_Timestamp : Buffer -> Timestamp * option Err * Buffer;
  DecodeMessage_Duration : Buffer -> Duration * option Err * Buffer;
  Size : Message -> Z;
  SizeVarint : Z -> Z
}.

(** The conversion [uint64(s)] of an [int]. *)
Definition uint64 (s : Z) : Z := s mod 2 ^ 64.

(** [len(b.Bytes())] *)
Definition len (P : Proto) (b : Buffer P) : Z := Z.of_nat (length (Bytes P b)).

Section Oneofs.

Variable P : Proto.

(** The key of a field: [tag<<3 | wire]. *)
Definition key (tag wire : Z) : Z := Z.lor (Z.shiftl tag 3) wire.

(** The [b.EncodeVarint(key); b.EncodeMessage(x)] of the message cases. *)
Definition encodeMessageField (tag : Z) (x : Message) (b : Buffer P)
    : option (Err P) * Buffer P :=
  let b := EncodeVarint P (key tag (WireBytes P)) b in
  match EncodeMessage P x b with
  | (Some err, b) => (Some err, b)
  | (None, b) => (None, b)
  end.

(** [s := proto.Size(x); n += SizeVarint(key); n += SizeVarint(uint64(s));
    n += s] of the message cases. *)
Definition sizeMessageField (tag : Z) (x : Message) (n : Z) : Z :=
  let s := Size P x in
  let n := n + SizeVarint P (key tag (WireBytes P)) in
  let n := n + SizeVarint P (uint64 s) in
  n + s.

Definition _TransactionOptions_OneofMarshaler (m : TransactionOptions)
    (b : Buffer P) : option (Err P) * Buffer P :=
  match Mode m with
  | Some (TransactionOptions_ReadWrite_ x) => encodeMessageField 1 (MsgReadWrite x) b
  | Some (TransactionOptions_ReadOnly_ x) => encodeMessageField 2 (MsgReadOnly x) b
  | None => (None, b)
  end.

(** The unmarshalers return whether they know the tag and the error, and
    leave their effect in the message and the buffer, returned here. *)
Definition _TransactionOptions_OneofUnmarshaler (m : TransactionOptions)
    (tag wire : Z) (b : Buffer P)
    : bool * option (Err P) * TransactionOptions * Buffer P :=
  if tag =? 1 then
    if negb (wire =? WireBytes P) then (true, Some (ErrInternalBadWireType P), m, b)
    else
      let '(msg, err, b) := DecodeMessage_ReadWrite P b in
      (true, err, {| Mode := Some (TransactionOptions_ReadWrite_ (Some msg)) |}, b)
  else if tag =? 2 then
    if negb (wire =? WireBytes P) then (true, Some (ErrInternalBadWireType P), m, b)
    else
      let '(msg, err, b) := DecodeMessage_ReadOnly P b in
      (true, err, {| Mode := Some (TransactionOptions_ReadOnly_ (Some msg)) |}, b)
  else (false, None, m, b).

Definition _TransactionOptions_OneofSizer (m : TransactionOptions) : Z :=
  let n := 0 in
  match Mode m with
  | Some (TransactionOptions_ReadWrite_ x) => sizeMessageField 1 (MsgReadWrite x) n
  | Some (TransactionOptions_ReadOnly_ x) => sizeMessageField 2 (MsgReadOnly x) n
  | None => n
  end.

Definition _TransactionOptions_ReadOnly_OneofMarshaler
    (m : TransactionOptions_ReadOnly) (b : Buffer P) : option (Err P) * Buffer P :=
  match TimestampBound m with
  | Some (TransactionOptions_ReadOnly_Strong x) =>
      let t := if x then 1 else 0 in
      let b := EncodeVarint P (key 1 (WireVarint P)) b in
      (None, EncodeVarint P t b)
  | Some (TransactionOptions_ReadOnly_MinReadTimestamp x) =>
      encodeMessageField 2 (MsgTimestamp x) b
  | Some (TransactionOptions_ReadOnly_MaxStaleness x) =>
      encodeMessageField 3 (MsgDuration x) b
  | Some (TransactionOptions_ReadOnly_ReadTimestamp x) =>
      encodeMessageField 4 (MsgTimestamp x) b
  | Some (TransactionOptions_ReadOnly_ExactStaleness x) =>
      encodeMessageField 5 (MsgDuration x) b
  | None => (None, b)
  end.

Definition setTimestampBound (m : TransactionOptions_ReadOnly)
    (x : isTransactionOptions_ReadOnly_TimestampBound) : TransactionOptions_ReadOnly :=
  {| TimestampBound := Some x; ReturnReadTimestamp := ReturnReadTimestamp m |}.

Definition _TransactionOptions_ReadOnly_OneofUnmarshaler
    (m : TransactionOptions_ReadOnly) (tag wire : Z) (b : Buffer P)
    : bool * option (Err P) * TransactionOptions_ReadOnly * Buffer P :=
  if tag =? 1 then
    if negb (wire =? WireVarint P) then (true, Some (ErrInternalBadWireType P), m, b)
    else
      let '(x, err, b) := DecodeVarint P b in
      (true, err,
       setTimestampBound m (TransactionOptions_ReadOnly_Strong (negb (x =? 0))), b)
  else if tag =? 2 then
    if negb (wire =? WireBytes P) then (true, Some (ErrInternalBadWireType P), m, b)
    else
      let '(msg, err, b) := DecodeMessage_Timestamp P b in
      (true, err,
       setTimestampBound m (TransactionOptions_ReadOnly_MinReadTimestamp (Some msg)), b)
  else if tag =? 3 then
    if negb (wire =? WireBytes P) then (true, Some (ErrInternalBadWireType P), m, b)
    else
      let '(msg, err, b) := DecodeMessage_Duration P b in
      (true, err,
       setTimestampBound m (TransactionOptions_ReadOnly_MaxStaleness (Some msg)), b)
  else if tag =? 4 then
    if negb (wire =? WireBytes P) then (true, Some (ErrInternalBadWireType P), m, b)
    else
      let '(msg, err, b) := DecodeMessage_Timestamp P b in
      (true, err,
       setTimestampBound m (TransactionOptions_ReadOnly_ReadTimestamp (Some msg)), b)
  else if tag =? 5 then
    if negb (wire =? WireBytes P) then (true, Some (ErrInternalBadWireType P), m, b)
    else
      let '(msg, err, b) := DecodeMessage_Duration P b in
      (true, err,
       setTimestampBound m (TransactionOptions_ReadOnly_ExactStaleness (Some msg)), b)
  else (false, None, m, b).

Definition _TransactionOptions_ReadOnly_OneofSizer
    (m : TransactionOptions_ReadOnly) : Z :=
  let n := 0 in
  match TimestampBound m with
  | Some (TransactionOptions_ReadOnly_Strong x) =>
      let n := n + SizeVarint P (key 1 (WireVarint P)) in
      n + 1
  | Some (TransactionOptions_ReadOnly_MinReadTimestamp x) =>
      sizeMessageField 2 (MsgTimestamp x) n
  | Some (TransactionOptions_ReadOnly_MaxStaleness x) =>
      sizeMessageField 3 (MsgDuration x) n
  | Some (TransactionOptions_ReadOnly_ReadTimestamp x) =>
      sizeMessageField 4 (MsgTimestamp x) n
  | Some (TransactionOptions_ReadOnly_ExactStaleness x) =>
      sizeMessageField 5 (MsgDuration x) n
  | None => n
  end.

Definition _TransactionSelector_OneofMarshaler (m : TransactionSelector)
    (b : Buffer P) : option (Err P) * Buffer P :=
  match Selector m with
  | Some (TransactionSelector_SingleUse x) =>
      encodeMessageField 1 (MsgTransactionOptions x) b
  | Some (TransactionSelector_Id x) =>
      let b := EncodeVarint P (key 2 (WireBytes P)) b in
      (None, EncodeRawBytes P x b)
  | Some (TransactionSelector_Begin x) =>
      encodeMessageField 3 (MsgTransactionOptions x) b
  | None => (None, b)
  end.

Definition _TransactionSelector_OneofUnmarshaler (m : TransactionSelector)
    (tag wire : Z) (b : Buffer P)
    : bool * option (Err P) * TransactionSelector * Buffer P :=
  if tag =? 1 then
    if negb (wire =? WireBytes P) then (true, Some (ErrInternalBadWireType P), m, b)
    else
      let '(msg, err, b) := DecodeMessage_TransactionOptions P b in
      (true, err, {| Selector := Some (TransactionSelector_SingleUse (Some msg)) |}, b)
  else if tag =? 2 then
    if negb (wire =? WireBytes P) then (true, Some (ErrInternalBadWireType P), m, b)
    else
      let '(x, err, b) := DecodeRawBytes P true b in
      (true, err, {| Selector := Some (TransactionSelector_Id x) |}, b)
  else if tag =? 3 then
    if negb (wire =? WireBytes P) then (true, Some (ErrInternalBadWireType P), m, b)
    else
      let '(msg, err, b) := DecodeMessage_TransactionOptions P b in
      (true, err, {| Selector := Some (TransactionSelector_Begin (Some msg)) |}, b)
  else (false, None, m, b).

Definition _TransactionSelector_OneofSizer (m : TransactionSelector) : Z :=
  let n := 0 in
  match Selector m with
  | Some (TransactionSelector_SingleUse x) =>
      sizeMessageField 1 (MsgTransactionOptions x) n
  | Some (TransactionSelector_Id x) =>
      let n := n + SizeVarint P (key 2 (WireBytes P)) in
      let n := n + SizeVarint P (uint64 (Z.of_nat (length x))) in
      n + Z.of_nat (length x)
  | Some (TransactionSelector_Begin x) =>
      sizeMessageField 3 (MsgTransactionOptions x) n
  | None => n
  end.

End Oneofs.

(** *** A library that records its calls

    A buffer is the list of the items written to it, read back in the
    order they were written; encoding a nil message is an error, as is
    decoding an item of another kind.  The wire types are those of the
    protocol buffer encoding. *)
Inductive Item : Type :=
| ItemVarint (x : Z)
| ItemMessage (m : Message)
| ItemBytes (bs : list Byte.byte).

Definition isNilMessage (m : Message) : bool :=
  match m with
  | MsgReadWrite None | MsgReadOnly None | MsgTransactionOptions None
  | MsgTimestamp None | MsgDuration None => true
  | _ => false
  end.

Definition itemBytes (i : Item) : list Byte.byte :=
  match i with
  | ItemVarint _ => [Byte.x00]
  | ItemMessage _ => [Byte.x00]
  | ItemBytes bs => Byte.x00 :: bs
  end.

Section Recording.

(** The zero values of the two imported messages. *)
Variable zeroTimestamp : Timestamp.
Variable zeroDuration : Duration.

Definition recordingProto : Proto :=
  {| Buffer := list Item;
     Err := string;
     ErrInternalBadWireType := "proto: internal error: bad wiretype for oneof";
     WireVarint := 0;
     WireBytes := 2;
     Bytes := fun b => concat (map itemBytes b);
     EncodeVarint := fun x b => (b ++ [ItemVarint x])%list;
     EncodeMessage := fun m b =>
       if isNilMessage m then (Some "proto: Marshal called with nil", b)
       else (None, (b ++ [ItemMessage m])%list);
     EncodeRawBytes := fun bs b => (b ++ [ItemBytes bs])%list;
     DecodeVarint := fun b =>
       match b with
       | ItemVarint x :: b' => (x, None, b')
       | _ => (0, Some "unexpected item", b)
       end;
     DecodeRawBytes := fun _ b =>
       match b with
       | ItemBytes bs :: b' => (bs, None, b')
       | _ => ([], Some "unexpected item", b)
       end;
     DecodeMessage_ReadWrite := fun b =>
       match b with
       | ItemMessage (MsgReadWrite (Some m)) :: b' => (m, None, b')
       | _ => (mkTransactionOptions_ReadWrite, Some "unexpected item", b)
       end;
     DecodeMessage_ReadOnly := fun b =>
       match b with
       | ItemMessage (MsgReadOnly (Some m)) :: b' => (m, None, b')
       | _ => ({| TimestampBound := None; ReturnReadTimestamp := false |},
               Some "unexpected item", b)
       end;
     DecodeMessage_TransactionOptions := fun b =>
       match b with
       | ItemMessage (MsgTransactionOptions (Some m)) :: b' => (m, None, b')
       | _ => ({| Mode := None |}, Some "unexpected item", b)
       end;
     DecodeMessage_Timestamp := fun b =>
       match b with
       | ItemMessage (MsgTimestamp (Some m)) :: b' => (m, None, b')
       | _ => (zeroTimestamp, Some "unexpected item", b)
       end;
     DecodeMessage_Duration := fun b =>
       match b with
       | ItemMessage (MsgDuration (Some m)) :: b' => (m, None, b')
       | _ => (zeroDuration, Some "unexpected item", b)
       end;
     Size := fun _ => 0;
     SizeVarint := fun _ => 1 |}.

End Recording.

End Messages.

(** The two imported message types are left implicit. *)
Arguments TransactionOptions_ReadOnly_Strong {Timestamp Duration}.
Arguments TransactionOptions_ReadOnly_MinReadTimestamp {Timestamp Duration}.
Arguments TransactionOptions_ReadOnly_MaxStaleness {Timestamp Duration}.
Arguments TransactionOptions_ReadOnly_ReadTimestamp {Timestamp Duration}.
Arguments TransactionOptions_ReadOnly_ExactStaleness {Timestamp Duration}.
Arguments mkTransactionOptions_ReadOnly {Timestamp Duration}.
Arguments TimestampBound {Timestamp Duration}.
Arguments ReturnReadTimestamp {Timestamp Duration}.
Arguments TransactionOptions_ReadWrite_ {Timestamp Duration}.
Arguments TransactionOptions_ReadOnly_ {Timestamp Duration}.
Arguments mkTransactionOptions {Timestamp Duration}.
Arguments Mode {Timestamp Duration}.
Arguments TransactionSelector_SingleUse {Timestamp Duration}.
Arguments TransactionSelector_Id {Timestamp Duration}.
Arguments TransactionSelector_Begin {Timestamp Duration}.
Arguments mkTransactionSelector {Timestamp Duration}.
Arguments Selector {Timestamp Duration}.
Arguments TransactionOptions_GetMode {Timestamp Duration}.
Arguments TransactionOptions_GetReadWrite {Timestamp Duration}.
Arguments TransactionOptions_GetReadOnly {Timestamp Duration}.
Arguments TransactionOptions_ReadOnly_GetTimestampBound {Timestamp Duration}.
Arguments TransactionOptions_ReadOnly_GetStrong {Timestamp Duration}.
Arguments TransactionOptions_ReadOnly_GetMinReadTimestamp {Timestamp Duration}.
Arguments TransactionOptions_ReadOnly_GetMaxStaleness {Timestamp Duration}.
Arguments TransactionOptions_ReadOnly_GetReadTimestamp {Timestamp Duration}.
Arguments TransactionOptions_ReadOnly_GetExactStaleness {Timestamp Duration}.
Arguments TransactionOptions_ReadOnly_GetReturnReadTimestamp {Timestamp Duration}.
Arguments TransactionSelector_GetSelector {Timestamp Duration}.
Arguments TransactionSelector_GetSingleUse {Timestamp Duration}.
Arguments TransactionSelector_GetId {Timestamp Duration}.
Arguments TransactionSelector_GetBegin {Timestamp Duration}.
Arguments MsgReadWrite {Timestamp Duration}.
Arguments MsgReadOnly {Timestamp Duration}.
Arguments MsgTransactionOptions {Timestamp Duration}.
Arguments MsgTimestamp {Timestamp Duration}.
Arguments MsgDuration {Timestamp Duration}.
Arguments mkProto {Timestamp Duration}.
Arguments Buffer {Timestamp Duration}.
Arguments Err {Timestamp Duration}.
Arguments ErrInternalBadWireType {Timestamp Duration}.
Arguments WireVarint {Timestamp Duration}.
Arguments WireBytes {Timestamp Duration}.
Arguments Bytes {Timestamp Duration}.
Arguments EncodeVarint {Timestamp Duration}.
Arguments EncodeMessage {Timestamp Duration}.
Arguments EncodeRawBytes {Timestamp Duration}.
Arguments DecodeVarint {Timestamp Duration}.
Arguments DecodeRawBytes {Timestamp Duration}.
Arguments DecodeMessage_ReadWrite {Timestamp Duration}.
Arguments DecodeMessage_ReadOnly {Timestamp Duration}.
Arguments DecodeMessage_TransactionOptions {Timestamp Duration}.
Arguments DecodeMessage_Timestamp {Timestamp Duration}.
Arguments DecodeMessage_Duration {Timestamp Duration}.
Arguments Size {Timestamp Duration}.
Arguments SizeVarint {Timestamp Duration}.
Arguments len {Timestamp Duration}.
Arguments encodeMessageField {Timestamp Duration}.
Arguments sizeMessageField {Timestamp Duration}.
Arguments _TransactionOptions_OneofMarshaler {Timestamp Duration}.
Arguments _TransactionOptions_OneofUnmarshaler {Timestamp Duration}.
Arguments _TransactionOptions_OneofSizer {Timestamp Duration}.
Arguments _TransactionOptions_ReadOnly_OneofMarshaler {Timestamp Duration}.
Arguments _TransactionOptions_ReadOnly_OneofUnmarshaler {Timestamp Duration}.
Arguments _TransactionOptions_ReadOnly_OneofSizer {Timestamp Duration}.
Arguments _TransactionSelector_OneofMarshaler {Timestamp Duration}.
Arguments _TransactionSelector_OneofUnmarshaler {Timestamp Duration}.
Arguments _TransactionSelector_OneofSizer {Timestamp Duration}.
Arguments setTimestampBound {Timestamp Duration}.
Arguments ItemVarint {Timestamp Duration}.
Arguments ItemMessage {Timestamp Duration}.
Arguments ItemBytes {Timestamp Duration}.
Arguments isNilMessage {Timestamp Duration}.
Arguments itemBytes {Timestamp Duration}.
Arguments recordingProto {Timestamp Duration}.
Arguments mkTransaction {Timestamp}.
Arguments Id {Timestamp}.
Arguments ReadTimestamp {Timestamp}.
Arguments Transaction_GetId {Timestamp}.
Arguments Transaction_GetReadTimestamp {Timestamp}.

End spanner.

(** *** Telling which getters answer *)

(** Is a pointer non-nil, is a slice non-empty, and how many flags are set. *)
Definition isSet {A : Type} (o : option A) : bool :=
  match o with Some _ => true | None => false end.

Definition nonEmpty (bs : list Byte.byte) : bool :=
  match bs with [] => false | _ :: _ => true end.

Definition countSet (flags : list bool) : nat :=
  length (List.filter (fun b : bool => b) flags).

(** ** What a run of the poll saw *)

(** The call [ev] is a listing of [dep] that succeeded and holds no entry,
    respectively some entry, with the IP [ip]. *)
Definition listsWithout (dep ip : string) (ev : Z * Event) : Prop :=
  exists L, snd ev = GetCall dep (inr L) /\ forall x, x ∈ L -> IP x <> ip.

Definition listsWith (dep ip : string) (ev : Z * Event) : Prop :=
  exists L, snd ev = GetCall dep (inr L) /\ exists x, x ∈ L /\ IP x = ip.

(** The same as tests. *)
Definition listsWithoutb (dep ip : string) (ev : Z * Event) : bool :=
  match snd ev with
  | GetCall dep' (inr L) => String.eqb dep' dep && negb (isSet (find (matchesIP ip) L))
  | _ => false
  end.

Definition listsWithb (dep ip : string) (ev : Z * Event) : bool :=
  match snd ev with
  | GetCall dep' (inr L) => String.eqb dep' dep && isSet (find (matchesIP ip) L)
  | _ => false
  end.

(** * Properties *)

(** ** Splitting an identifier *)

Section SplitFacts.

Variable sep : ascii.

Lemma Split_not_nil (s : string) : gostrings.Split s sep <> [].
Proof.
  induction s as [|c s IH]; simpl; [discriminate|].
  destruct (Ascii.eqb c sep); [discriminate|].
  destruct (gostrings.Split s sep); discriminate.
Qed.

(** Without a separator the string is its own single field. *)
Lemma Split_without_sep (s : string) :
  gostrings.ContainsByte s sep = false -> gostrings.Split s sep = [s].
Proof.
  induction s as [|c s IH]; simpl; [reflexivity|].
  intros H. apply orb_false_iff in H as [Hc Hs].
  rewrite Hc, (IH Hs). reflexivity.
Qed.

(** With a separator there are at least two fields. *)
Lemma Split_with_sep (s : string) :
  gostrings.ContainsByte s sep = true ->
  exists f0 f1 fs, gostrings.Split s sep = f0 :: f1 :: fs.
Proof.
  induction s as [|c s IH]; simpl; [discriminate|].
  destruct (Ascii.eqb c sep) eqn:Hc; simpl.
  - intros _. destruct (gostrings.Split s sep) as [|f fs] eqn:E.
    + exfalso. exact (Split_not_nil s E).
    + eauto.
  - intros Hs. destruct (IH Hs) as (f0 & f1 & fs & ->). eauto.
Qed.

(** The fields of [a ++ sep ++ b] when [a] holds no separator. *)
Lemma Split_app (a b : string) :
  gostrings.ContainsByte a sep = false ->
  gostrings.Split (a +:+ String sep b) sep = a :: gostrings.Split b sep.
Proof.
  induction a as [|c a IH]; simpl.
  - intros _. rewrite Ascii.eqb_refl. reflexivity.
  - intros H. apply orb_false_iff in H as [Hc Ha].
    rewrite Hc, (IH Ha). reflexivity.
Qed.

End SplitFacts.

(** ** The first match of a scan *)

Lemma find_firstSuch (p : Whitelist -> bool) (l : list Whitelist) (e : Whitelist) :
  find p l = Some e <-> firstSuch p l e.
Proof.
  split.
  - induction l as [|x l IH]; simpl; [discriminate|].
    destruct (p x) eqn:Hx.
    + intros [= ->]. exists [], l. repeat split; [assumption|].
      intros y Hy. inversion Hy.
    + intros H. destruct (IH H) as (pre & post & -> & He & Hpre).
      exists (x :: pre), post. repeat split; [assumption|].
      intros y Hy. apply elem_of_cons in Hy as [->|Hy]; auto.
  - intros (pre & post & -> & He & Hpre).
    induction pre as [|x pre IH]; simpl.
    + rewrite He. reflexivity.
    + rewrite (Hpre x) by (apply elem_of_cons; left; reflexivity).
      apply IH. intros y Hy. apply Hpre. apply elem_of_cons. right. exact Hy.
Qed.

Lemma find_none_iff (p : Whitelist -> bool) (l : list Whitelist) :
  find p l = None <-> forall x, x ∈ l -> p x = false.
Proof.
  induction l as [|x l IH]; simpl.
  - split; [intros _ y Hy; inversion Hy | reflexivity].
  - destruct (p x) eqn:Hx.
    + split; [discriminate|]. intros H.
      rewrite (H x) in Hx by (apply elem_of_cons; left; reflexivity). discriminate.
    + rewrite IH. split.
      * intros H y Hy. apply elem_of_cons in Hy as [->|Hy]; auto.
      * intros H y Hy. apply H, elem_of_cons. right. exact Hy.
Qed.

Lemma find_some_iff (p : Whitelist -> bool) (l : list Whitelist) :
  (exists e, find p l = Some e) <-> exists x, x ∈ l /\ p x = true.
Proof.
  split.
  - intros [e He]. apply find_firstSuch in He as (pre & post & -> & He & _).
    exists e. split; [|assumption].
    apply elem_of_app. right. apply elem_of_cons. left. reflexivity.
  - intros (x & Hx & Hp). destruct (find p l) as [e|] eqn:E; [eauto|].
    rewrite find_none_iff in E. rewrite (E x Hx) in Hp. discriminate.
Qed.

Lemma matchesIP_true (ip : string) (e : Whitelist) :
  matchesIP ip e = true <-> IP e = ip.
Proof. unfold matchesIP. apply String.eqb_eq. Qed.

Lemma matchesIP_false (ip : string) (e : Whitelist) :
  matchesIP ip e = false <-> IP e <> ip.
Proof. unfold matchesIP. apply String.eqb_neq. Qed.

Lemma matchesDescription_true (description : string) (e : Whitelist) :
  matchesDescription description e = true <-> Description e = description.
Proof. unfold matchesDescription. apply String.eqb_eq. Qed.

Lemma matchesDescription_false (description : string) (e : Whitelist) :
  matchesDescription description e = false <-> Description e <> description.
Proof. unfold matchesDescription. apply String.eqb_neq. Qed.

Lemma matchesID_true (id : string) (e : Whitelist) :
  matchesID id e = true <-> ID e = id.
Proof. unfold matchesID. apply String.eqb_eq. Qed.

(** ** The polling predicate *)

(** One invocation performs exactly one listing and answers from it. *)
Lemma refresh_unfold (client : Client) (dep ip : string) (w : World) :
  whitelistCompletedRefreshFunc client dep ip w =
  Some (refreshResult ip (getAnswer client w dep),
        record (GetCall dep (getAnswer client w dep)) w).
Proof. reflexivity. Qed.

(** C2: on a listing [L], one invocation of the polling predicate answers
    ["existing"] together with the identifier of the first entry whose IP is
    the target IP if and only if some entry of [L] has that IP; otherwise it
    answers the empty state with a nil value.  Neither answer carries an
    error. *)
Theorem refresh_settled_iff_ip_listed (client : Client) (dep ip : string)
    (w : World) (L : list Whitelist) :
  getAnswer client w dep = inr L ->
  let w' := record (GetCall dep (inr L)) w in
  ((exists x, x ∈ L /\ IP x = ip) <->
   (exists e, firstSuch (matchesIP ip) L e /\
      whitelistCompletedRefreshFunc client dep ip w =
        Some ((Some (ID e), "existing", None), w')))
  /\ (~ (exists x, x ∈ L /\ IP x = ip) ->
      whitelistCompletedRefreshFunc client dep ip w = Some ((None, "", None), w')).
Proof.
  intros HL w'. rewrite refresh_unfold, HL. unfold refreshResult. split.
  - split.
    + intros (x & Hx & Hip).
      destruct (proj2 (find_some_iff (matchesIP ip) L)) as [e He].
      { exists x. split; [assumption | apply matchesIP_true, Hip]. }
      exists e. split; [apply find_firstSuch, He|]. rewrite He. reflexivity.
    + intros (e & (pre & post & -> & He & _) & _). exists e. split.
      * apply elem_of_app. right. apply elem_of_cons. left. reflexivity.
      * apply matchesIP_true, He.
  - intros Hno. destruct (find (matchesIP ip) L) as [e|] eqn:E; [|reflexivity].
    exfalso. apply Hno.
    destruct (proj1 (find_some_iff (matchesIP ip) L)) as (x & Hx & Hp); [eauto|].
    exists x. split; [assumption | apply matchesIP_true, Hp].
Qed.



Lemma refresh_settled_iff_ip_listed_witness :
  getAnswer lateClient (mkWorld (13 * Second) []) "d1" = inr [officeEntry] /\
  whitelistCompletedRefreshFunc lateClient "d1" "10.0.0.1/32" (mkWorld (13 * Second) []) =
    Some ((None, "", None),
          record (GetCall "d1" (inr [officeEntry])) (mkWorld (13 * Second) [])).
Proof.
  split; [reflexivity|].
  apply (refresh_settled_iff_ip_listed lateClient "d1" "10.0.0.1/32"
           (mkWorld (13 * Second) []) [officeEntry]); [reflexivity|].
  intros (x & Hx & Hip). apply elem_of_cons in Hx as [->|Hx].
  - discriminate Hip.
  - inversion Hx.
Defined.




(** ** Import *)

(** C8: import panics with an index out of range (index 1 of a slice of
    length 1), before any call to the service, on every identifier without
    ['@']; on every identifier with an ['@'] it returns. *)
Theorem import_panics_iff_no_separator (d : ResourceData) (meta : Client)
    (w : World) :
  if gostrings.ContainsByte (Id d) "@"
  then exists r w', resourceComposeWhitelistImport d meta w = Some (Returns r, w')
  else resourceComposeWhitelistImport d meta w =
       Some (Panics (IndexOutOfRange 1 1), w).
Proof.
  unfold resourceComposeWhitelistImport.
  destruct (gostrings.ContainsByte (Id d) "@") eqn:H.
  - destruct (Split_with_sep _ _ H) as (f0 & f1 & fs & ->).
    unfold index; simpl. unfold bind, GetWhitelistForDeployment.
    destruct (getAnswer meta w f0) as [errs|L]; [do 2 eexists; reflexivity|].
    destruct (find (matchesIP f1) L); do 2 eexists; reflexivity.
  - rewrite (Split_without_sep _ _ H). reflexivity.
Qed.

Lemma Get_Set_eq (d : ResourceData) (key value : string) :
  Get (Set_ d key value) key = value.
Proof. unfold Get, Set_; simpl. rewrite lookup_insert_eq. reflexivity. Qed.

Lemma Get_Set_ne (d : ResourceData) (key key' value : string) :
  key <> key' -> Get (Set_ d key value) key' = Get d key'.
Proof. intros H. unfold Get, Set_; simpl. rewrite lookup_insert_ne by exact H. reflexivity. Qed.

Lemma Get_SetId (d : ResourceData) (v key : string) : Get (SetId d v) key = Get d key.
Proof. reflexivity. Qed.

(** C6: import of [dep@ip], when the service lists the whitelist [L] of
    [dep].  If some entry of [L] has the IP [ip], import returns exactly one
    resource, filled from the first such entry: its [deployment_id] is
    [dep], its [description] and [ip] are the entry's and its identifier is
    the entry's ID.  If no entry has that IP, import returns no resource and
    the error "Whitelist item not found", which is not the error of a failed
    listing. *)
Theorem import_by_ip (d : ResourceData) (meta : Client) (w : World)
    (dep ip : string) (L : list Whitelist) :
  Id d = dep +:+ "@" +:+ ip ->
  gostrings.ContainsByte dep "@" = false ->
  gostrings.ContainsByte ip "@" = false ->
  getAnswer meta w dep = inr L ->
  let w' := record (GetCall dep (inr L)) w in
  ((exists x, x ∈ L /\ IP x = ip) ->
   exists e d',
     firstSuch (matchesIP ip) L e /\
     resourceComposeWhitelistImport d meta w = Some (Returns (Some [d'], None), w') /\
     Get d' "deployment_id" = dep /\
     Get d' "description" = Description e /\
     Get d' "ip" = IP e /\
     Id d' = ID e)
  /\ ((forall x, x ∈ L -> IP x <> ip) ->
      resourceComposeWhitelistImport d meta w =
        Some (Returns (None, Some (Errorf "Whitelist item not found" [])), w')
      /\ forall errs, Errorf "Whitelist item not found" [] <>
                      Errorf "Error querying whitelist entry: %s" errs).
Proof.
  intros Hid Hdep Hip HL w'.
  assert (Hsplit : gostrings.Split (Id d) "@" = [dep; ip]).
  { rewrite Hid. change ("@" +:+ ip) with (String "@" ip).
    rewrite (Split_app _ _ _ Hdep).
    rewrite (Split_without_sep _ _ Hip). reflexivity. }
  unfold resourceComposeWhitelistImport. rewrite Hsplit.
  unfold index; simpl. unfold bind, GetWhitelistForDeployment. rewrite HL.
  split.
  - intros (x & Hx & Hxip).
    destruct (proj2 (find_some_iff (matchesIP ip) L)) as [e He].
    { exists x. split; [assumption | apply matchesIP_true, Hxip]. }
    rewrite He. exists e. eexists. split; [apply find_firstSuch, He|].
    split; [reflexivity|]. repeat split; rewrite Get_SetId.
    + rewrite !Get_Set_ne by discriminate. apply Get_Set_eq.
    + rewrite Get_Set_ne by discriminate. apply Get_Set_eq.
    + apply Get_Set_eq.
  - intros Hno. split; [|discriminate].
    destruct (find (matchesIP ip) L) as [e|] eqn:E; [|reflexivity].
    exfalso. apply find_firstSuch in E as (pre & post & -> & He & _).
    apply (Hno e); [|apply matchesIP_true, He].
    apply elem_of_app. right. apply elem_of_cons. left. reflexivity.
Qed.

Lemma import_by_ip_witness :
  (Id (mkResourceData "d1@10.0.0.0/24" ∅) = "d1" +:+ "@" +:+ "10.0.0.0/24" /\
   gostrings.ContainsByte "d1" "@" = false /\
   gostrings.ContainsByte "10.0.0.0/24" "@" = false /\
   getAnswer steadyClient (mkWorld 0 []) "d1" = inr [officeEntry]) /\
  exists e d',
    firstSuch (matchesIP "10.0.0.0/24") [officeEntry] e /\
    resourceComposeWhitelistImport (mkResourceData "d1@10.0.0.0/24" ∅) steadyClient
      (mkWorld 0 []) =
      Some (Returns (Some [d'], None),
            record (GetCall "d1" (inr [officeEntry])) (mkWorld 0 [])) /\
    Get d' "deployment_id" = "d1" /\
    Get d' "description" = Description e /\
    Get d' "ip" = IP e /\
    Id d' = ID e.
Proof.
  split; [repeat split|].
  apply (import_by_ip (mkResourceData "d1@10.0.0.0/24" ∅) steadyClient (mkWorld 0 [])
           "d1" "10.0.0.0/24" [officeEntry]); try reflexivity.
  exists officeEntry. split; [|reflexivity].
  apply elem_of_cons. left. reflexivity.
Defined.

(** ** Failed writes *)

Lemma polls_record_get (dep : string) (a : Errs + list Whitelist) (w : World) :
  polls (record (GetCall dep a) w) = polls w + 1.
Proof. unfold polls; simpl. lia. Qed.

Lemma polls_sleep (d : Z) (w : World) : polls (sleep d w) = polls w.
Proof. reflexivity. Qed.

(** C7: when the service refuses the write, create (respectively delete)
    returns the error built from the service's errors at once: the only call
    made is the write itself, no listing is made, no time passes, and the
    resource data is returned as it was. *)
Theorem failed_write_returns_at_once (backoff : nat -> Z) (fuel : nat)
    (d : ResourceData) (meta : Client) (w : World) (errs : Errs) :
  let dep := Get d "deployment_id" in
  let entry := {| ID := ""; IP := Get d "ip"; Description := Get d "description" |} in
  (addAnswer meta w dep entry = Some errs ->
   exists w',
     resourceComposeWhitelistCreate backoff fuel d meta w =
       Some ((d, Some (Errorf "Error adding whitelist entry: %s" (errsList errs))), w') /\
     trace w' = (now w, AddCall dep entry (Some errs)) :: trace w /\
     polls w' = polls w /\ now w' = now w)
  /\
  (deleteAnswer meta w dep (Id d) = Some errs ->
   exists w',
     resourceComposeWhitelistDelete backoff fuel d meta w =
       Some ((d, Some (Errorf "Error deleting whitelist entry: %s" (errsList errs))), w') /\
     trace w' = (now w, DeleteCall dep (Id d) (Some errs)) :: trace w /\
     polls w' = polls w /\ now w' = now w).
Proof.
  intros dep entry. split; intros H; eexists.
  - unfold resourceComposeWhitelistCreate, bind, AddWhitelistForDeployment.
    fold dep entry. rewrite H. split; [reflexivity|]. repeat split.
  - unfold resourceComposeWhitelistDelete, bind, DeleteWhitelistForDeployment.
    fold dep. rewrite H. split; [reflexivity|]. repeat split.
Qed.



Lemma failed_write_returns_at_once_witness :
  (addAnswer refusingClient (mkWorld 0 []) "d1"
     {| ID := ""; IP := "10.0.0.0/24"; Description := "office" |} = Some ("forbidden", []) /\
   deleteAnswer refusingClient (mkWorld 0 []) "d1" "abc123" = Some ("forbidden", [])) /\
  (exists w',
     resourceComposeWhitelistCreate (fun _ => 0) 0 officeData refusingClient (mkWorld 0 []) =
       Some ((officeData, Some (Errorf "Error adding whitelist entry: %s" ["forbidden"])), w') /\
     trace w' = [(0, AddCall "d1" {| ID := ""; IP := "10.0.0.0/24"; Description := "office" |}
                       (Some ("forbidden", [])))] /\
     polls w' = 0 /\ now w' = 0) /\
  (exists w',
     resourceComposeWhitelistDelete (fun _ => 0) 0 officeData refusingClient (mkWorld 0 []) =
       Some ((officeData, Some (Errorf "Error deleting whitelist entry: %s" ["forbidden"])), w') /\
     trace w' = [(0, DeleteCall "d1" "abc123" (Some ("forbidden", [])))] /\
     polls w' = 0 /\ now w' = 0).
Proof.
  split; [split; reflexivity|].
  pose proof (failed_write_returns_at_once (fun _ => 0) 0 officeData refusingClient
                (mkWorld 0 []) ("forbidden", [])) as [Hc Hd].
  split; [apply Hc | apply Hd]; reflexivity.
Defined.

(** ** The polling loop *)



Section LoopFacts.

Variable backoff : nat -> Z.
Variable conf : StateChangeConf.
Variable client : Client.
Variables dep ip : string.
Hypothesis conf_refresh :
  Refresh conf = whitelistCompletedRefreshFunc client dep ip.

(** One round of the loop, spelled out. *)
Lemma refreshLoop_unfold (fuel k : nat) (deadline : Z) (w : World) :
  refreshLoop backoff conf (S fuel) k deadline w =
  let a := getAnswer client w dep in
  let w1 := record (GetCall dep a) w in
  match a with
  | inl errs => Some ((None, Some (ApiError (fst errs))), w1)
  | inr L =>
      match readsAs conf ip L with
      | settled => Some ((fst (fst (refreshResult ip (inr L))), None), w1)
      | pending =>
          let wait := Z.max (MinTimeout conf) (backoff k) in
          if deadline <? now w + wait
          then Some ((None, Some (TimeoutError (Timeout conf))),
                     sleep (deadline - now w) w1)
          else refreshLoop backoff conf fuel (S k) deadline (sleep wait w1)
      end
  end.
Proof.
  cbn [refreshLoop]. unfold bind at 1. rewrite conf_refresh, refresh_unfold.
  destruct (getAnswer client w dep) as [errs|L]; [reflexivity|].
  unfold readsAs. cbn [refreshResult].
  destruct (find (matchesIP ip) L) as [e|]; cbn [fst];
    match goal with |- context [classify ?c ?v ?s] =>
      destruct (classify c v s) end; reflexivity.
Qed.

(** The shape of every run of the loop that returns: the calls it made are
    listings of [dep]; all but the last left the poll pending; the last
    decides the result. *)
Lemma refreshLoop_run (fuel k : nat) (deadline : Z) (w : World)
    (v : option string) (err : option error) (w' : World) :
  refreshLoop backoff conf fuel k deadline w = Some ((v, err), w') ->
  exists t a rest,
    trace w' = ((t, GetCall dep a) :: rest ++ trace w)%list /\
    Forall (pendingRound conf dep ip) rest /\
    match a with
    | inl errs => v = None /\ err = Some (ApiError (fst errs)) /\ now w' = t
    | inr L =>
        (readsAs conf ip L = settled /\ err = None /\
         v = fst (fst (refreshResult ip (inr L))) /\ now w' = t)
        \/ (readsAs conf ip L = pending /\
            err = Some (TimeoutError (Timeout conf)) /\ v = None /\
            now w' = deadline)
    end.
Proof.
  revert k w. induction fuel as [|fuel IH]; intros k w; [discriminate|].
  rewrite refreshLoop_unfold. cbv zeta.
  destruct (getAnswer client w dep) as [errs|L] eqn:Ha.
  - intros [= <- <- <-]. exists (now w), (inl errs), []. simpl. auto.
  - destruct (readsAs conf ip L) eqn:Hr.
    + destruct (deadline <? now w + Z.max (MinTimeout conf) (backoff k)).
      * intros [= <- <- <-]. exists (now w), (inr L), []. simpl.
        split; [reflexivity|]. split; [constructor|]. right.
        repeat split; [assumption | lia].
      * intros H. apply IH in H as (t & a & rest & Htr & Hrest & Hlast).
        exists t, a, (rest ++ [(now w, GetCall dep (inr L))])%list.
        split; [|split; [|exact Hlast]].
        -- rewrite Htr. simpl. rewrite <- app_assoc. reflexivity.
        -- apply Forall_app. split; [exact Hrest|].
           constructor; [|constructor]. exists L. split; [reflexivity|exact Hr].
    + intros [= <- <- <-]. exists (now w), (inr L), []. simpl.
      split; [reflexivity|]. split; [constructor|]. left. auto.
Qed.

Lemma div_step (x m wt : Z) :
  0 < m -> m <= wt -> wt <= x -> 0 <= (x - wt) / m /\ (x - wt) / m + 1 <= x / m.
Proof.
  intros Hm Hwt Hx. split; [apply Z.div_pos; lia|].
  assert (H : (x - wt) / m <= (x + (-1) * m) / m) by (apply Z.div_le_mono; lia).
  rewrite Z.div_add in H by lia. lia.
Qed.

(** With a positive minimum interval the loop returns as soon as its
    budget of rounds exceeds what fits between now and the deadline. *)
Lemma refreshLoop_returns (fuel k : nat) (deadline : Z) (w : World) :
  0 < MinTimeout conf ->
  (Z.to_nat ((deadline - now w) / MinTimeout conf) < fuel)%nat ->
  exists r w', refreshLoop backoff conf fuel k deadline w = Some (r, w').
Proof.
  intros Hmin. revert k w. induction fuel as [|fuel IH]; intros k w Hfuel; [lia|].
  rewrite refreshLoop_unfold. cbv zeta.
  destruct (getAnswer client w dep) as [errs|L]; [eauto|].
  destruct (readsAs conf ip L); [|eauto].
  destruct (Z.ltb_spec deadline (now w + Z.max (MinTimeout conf) (backoff k)))
    as [Hlt|Hge]; [eauto|].
  apply IH. simpl.
  destruct (div_step (deadline - now w) (MinTimeout conf)
              (Z.max (MinTimeout conf) (backoff k))) as [H0 H1]; try lia.
  replace (deadline - (now w + Z.max (MinTimeout conf) (backoff k)))
    with (deadline - now w - Z.max (MinTimeout conf) (backoff k)) by lia.
  lia.
Qed.

(** While every listing leaves the poll pending, the loop ends in the
    timeout error at the deadline, after at least one and at most
    [(deadline - now) / MinTimeout + 1] listings. *)
Lemma refreshLoop_times_out (fuel k : nat) (deadline : Z) (w : World) :
  0 < MinTimeout conf ->
  (forall w0, exists L, getAnswer client w0 dep = inr L /\ readsAs conf ip L = pending) ->
  now w <= deadline ->
  (Z.to_nat ((deadline - now w) / MinTimeout conf) < fuel)%nat ->
  exists w',
    refreshLoop backoff conf fuel k deadline w =
      Some ((None, Some (TimeoutError (Timeout conf))), w') /\
    now w' = deadline /\
    1 <= polls w' - polls w <= (deadline - now w) / MinTimeout conf + 1.
Proof.
  intros Hmin Hpend. revert k w.
  induction fuel as [|fuel IH]; intros k w Hnow Hfuel; [lia|].
  rewrite refreshLoop_unfold. cbv zeta.
  destruct (Hpend w) as (L & -> & ->).
  assert (Hq : 0 <= (deadline - now w) / MinTimeout conf)
    by (apply Z.div_pos; lia).
  destruct (Z.ltb_spec deadline (now w + Z.max (MinTimeout conf) (backoff k)))
    as [Hlt|Hge].
  - eexists. split; [reflexivity|]. simpl. split; [lia|].
    rewrite polls_sleep, polls_record_get. lia.
  - destruct (div_step (deadline - now w) (MinTimeout conf)
                (Z.max (MinTimeout conf) (backoff k))) as [H0 H1]; try lia.
    destruct (IH (S k) (sleep (Z.max (MinTimeout conf) (backoff k))
                          (record (GetCall dep (inr L)) w)))
      as (w' & Hrun & Hend & Hcount).
    + simpl. lia.
    + simpl.
      replace (deadline - (now w + Z.max (MinTimeout conf) (backoff k)))
        with (deadline - now w - Z.max (MinTimeout conf) (backoff k)) by lia.
      lia.
    + exists w'. split; [exact Hrun|]. split; [exact Hend|].
      rewrite polls_sleep, polls_record_get in Hcount. simpl in Hcount.
      replace (deadline - (now w + Z.max (MinTimeout conf) (backoff k)))
        with (deadline - now w - Z.max (MinTimeout conf) (backoff k))
        in Hcount by lia.
      lia.
Qed.

End LoopFacts.

(** ** How create and delete read a listing *)

Lemma readsAs_create (client : Client) (dep ip : string) (L : list Whitelist) :
  readsAs (createConf client dep ip) ip L =
  match find (matchesIP ip) L with Some _ => settled | None => pending end.
Proof.
  unfold readsAs, refreshResult. destruct (find (matchesIP ip) L); reflexivity.
Qed.

Lemma readsAs_delete (client : Client) (dep ip : string) (L : list Whitelist) :
  readsAs (deleteConf client dep ip) ip L =
  match find (matchesIP ip) L with Some _ => pending | None => settled end.
Proof.
  unfold readsAs, refreshResult. destruct (find (matchesIP ip) L); reflexivity.
Qed.

Lemma WaitForState_create (backoff : nat -> Z) (client : Client)
    (dep ip : string) (fuel : nat) (w : World) :
  WaitForState backoff (createConf client dep ip) fuel w =
  refreshLoop backoff (createConf client dep ip) fuel 0 (now w + 5 * Minute)
    (sleep (10 * Second) w).
Proof. reflexivity. Qed.

Lemma WaitForState_delete (backoff : nat -> Z) (client : Client)
    (dep ip : string) (fuel : nat) (w : World) :
  WaitForState backoff (deleteConf client dep ip) fuel w =
  refreshLoop backoff (deleteConf client dep ip) fuel 0 (now w + 5 * Minute)
    (sleep (10 * Second) w).
Proof. reflexivity. Qed.

(** The spec's scenario: the entry shows up twelve seconds after the write;
    the poll of create sees nothing at 10 s, finds it at 13 s and returns its
    identifier. *)
Example late_entry_is_found :
  WaitForState (fun _ => 0) (createConf lateClient "d1" "10.0.0.0/24") 100 (mkWorld 0 []) =
    Some ((Some "abc123", None),
          {| now := 13 * Second;
             trace := [(13 * Second, GetCall "d1" (inr [officeEntry]));
                       (10 * Second, GetCall "d1" (inr []))] |}).
Proof. reflexivity. Qed.

(** ** Read errors during the poll *)

(** C4: a poll whose predicate is the whitelist predicate returns (given a
    positive minimum interval and a budget of rounds above
    [Timeout / MinTimeout]), and in the calls it made a failed listing can
    only be the last one: no call follows it, the poll's result is that
    listing's first error, and the clock still shows the time of the failed
    call. *)
Theorem read_error_ends_poll (backoff : nat -> Z) (conf : StateChangeConf)
    (client : Client) (dep ip : string) (fuel : nat) (w : World) :
  Refresh conf = whitelistCompletedRefreshFunc client dep ip ->
  0 < MinTimeout conf ->
  0 <= Delay conf ->
  (Z.to_nat (Timeout conf / MinTimeout conf) < fuel)%nat ->
  exists v err w' new,
    WaitForState backoff conf fuel w = Some ((v, err), w') /\
    trace w' = (new ++ trace w)%list /\
    forall post t errs pre,
      new = (post ++ (t, GetCall dep (inl errs)) :: pre)%list ->
      post = [] /\ v = None /\ err = Some (ApiError (fst errs)) /\ now w' = t.
Proof.
  intros Href Hmin Hdelay Hfuel. unfold WaitForState.
  destruct (Z.ltb_spec (Timeout conf) (Delay conf)) as [Hlt|Hge].
  - exists None, (Some (TimeoutError (Timeout conf))), (sleep (Timeout conf) w), [].
    split; [reflexivity|]. split; [reflexivity|].
    intros [|x post] t errs pre H; discriminate H.
  - destruct (refreshLoop_returns backoff conf client dep ip Href fuel 0%nat
                (now w + Timeout conf) (sleep (Delay conf) w) Hmin)
      as ([v err] & w' & Hrun).
    { simpl.
      assert ((now w + Timeout conf - (now w + Delay conf)) / MinTimeout conf
              <= Timeout conf / MinTimeout conf) by (apply Z.div_le_mono; lia).
      lia. }
    pose proof (refreshLoop_run backoff conf client dep ip Href _ _ _ _ _ _ _ Hrun)
      as (t0 & a & rest & Htr & Hrest & Hlast).
    exists v, err, w', ((t0, GetCall dep a) :: rest).
    split; [exact Hrun|]. split; [exact Htr|].
    intros [|x post] t errs pre H.
    + injection H as -> -> ->. destruct Hlast as (-> & -> & ->). auto.
    + exfalso. injection H as _ ->.
      apply Forall_app in Hrest as [_ Hev].
      apply Forall_cons in Hev as [(L & Hev & _) _]. discriminate Hev.
Qed.

Lemma read_error_ends_poll_witness :
  (Refresh (createConf failingClient "d1" "10.0.0.0/24") =
     whitelistCompletedRefreshFunc failingClient "d1" "10.0.0.0/24" /\
   0 < MinTimeout (createConf failingClient "d1" "10.0.0.0/24") /\
   0 <= Delay (createConf failingClient "d1" "10.0.0.0/24") /\
   (Z.to_nat (Timeout (createConf failingClient "d1" "10.0.0.0/24") /
              MinTimeout (createConf failingClient "d1" "10.0.0.0/24")) < 101)%nat) /\
  exists v err w' new,
    WaitForState (fun _ => 0) (createConf failingClient "d1" "10.0.0.0/24") 101
      (mkWorld 0 []) = Some ((v, err), w') /\
    trace w' = (new ++ [])%list /\
    forall post t errs pre,
      new = (post ++ (t, GetCall "d1" (inl errs)) :: pre)%list ->
      post = [] /\ v = None /\ err = Some (ApiError (fst errs)) /\ now w' = t.
Proof.
  split; [split; [reflexivity|split; [reflexivity|split; [discriminate|vm_compute; lia]]]|].
  apply (read_error_ends_poll (fun _ => 0) (createConf failingClient "d1" "10.0.0.0/24")
           failingClient "d1" "10.0.0.0/24" 101 (mkWorld 0 [])).
  - reflexivity.
  - reflexivity.
  - discriminate.
  - vm_compute. lia.
Defined.

(** ** Runs of the poll *)

Lemma find_matchesIP_none (ip : string) (L : list Whitelist) :
  find (matchesIP ip) L = None <-> forall x, x ∈ L -> IP x <> ip.
Proof.
  rewrite find_none_iff. split; intros H x Hx; apply matchesIP_false, H, Hx.
Qed.

Lemma find_matchesIP_some (ip : string) (L : list Whitelist) :
  (exists e, find (matchesIP ip) L = Some e) <-> exists x, x ∈ L /\ IP x = ip.
Proof.
  rewrite find_some_iff. split; intros (x & Hx & H); exists x; (split; [exact Hx|]);
    apply matchesIP_true, H.
Qed.

Lemma listsWithoutb_true (dep ip : string) (ev : Z * Event) :
  listsWithoutb dep ip ev = true -> listsWithout dep ip ev.
Proof.
  unfold listsWithoutb, listsWithout. destruct (snd ev) as [| |dep' [errs|L]];
    try discriminate.
  intros H. apply andb_true_iff in H as [Hd Hf]. apply String.eqb_eq in Hd as ->.
  exists L. split; [reflexivity|]. apply find_matchesIP_none.
  destruct (find (matchesIP ip) L); [discriminate | reflexivity].
Qed.

Lemma listsWithb_true (dep ip : string) (ev : Z * Event) :
  listsWithb dep ip ev = true -> listsWith dep ip ev.
Proof.
  unfold listsWithb, listsWith. destruct (snd ev) as [| |dep' [errs|L]];
    try discriminate.
  intros H. apply andb_true_iff in H as [Hd Hf]. apply String.eqb_eq in Hd as ->.
  exists L. split; [reflexivity|]. apply find_matchesIP_some.
  destruct (find (matchesIP ip) L) as [e|]; [eauto | discriminate].
Qed.

Lemma Forall_forallb {A : Type} (P : A -> Prop) (p : A -> bool) (l : list A) :
  (forall x, p x = true -> P x) -> forallb p l = true -> Forall P l.
Proof.
  intros Hp. induction l as [|x l IH]; simpl; [constructor|].
  intros H. apply andb_true_iff in H as [Hx Hl]. constructor; auto.
Qed.

(** A round leaves the poll of create pending when its listing lacks the
    IP, and the poll of delete when its listing holds it. *)
Lemma pendingRound_create (client : Client) (dep ip : string) (ev : Z * Event) :
  pendingRound (createConf client dep ip) dep ip ev <-> listsWithout dep ip ev.
Proof.
  unfold pendingRound, listsWithout.
  split; intros (L & Hev & H); exists L; (split; [exact Hev|]).
  - rewrite readsAs_create in H. apply find_matchesIP_none.
    destruct (find (matchesIP ip) L); [discriminate | reflexivity].
  - rewrite readsAs_create. apply find_matchesIP_none in H. rewrite H. reflexivity.
Qed.

Lemma pendingRound_delete (client : Client) (dep ip : string) (ev : Z * Event) :
  pendingRound (deleteConf client dep ip) dep ip ev <-> listsWith dep ip ev.
Proof.
  unfold pendingRound, listsWith.
  split; intros (L & Hev & H); exists L; (split; [exact Hev|]).
  - rewrite readsAs_delete in H. apply find_matchesIP_some.
    destruct (find (matchesIP ip) L) as [e|]; [eauto | discriminate].
  - rewrite readsAs_delete. apply find_matchesIP_some in H as [e ->]. reflexivity.
Qed.

Section RunFacts.

Variable backoff : nat -> Z.
Variable conf : StateChangeConf.
Variable client : Client.
Variables dep ip : string.
Hypothesis conf_refresh :
  Refresh conf = whitelistCompletedRefreshFunc client dep ip.

(** Every run of the loop that starts before the deadline makes at least
    one listing and at most as many as minimum intervals fit before the
    deadline, plus one; it ends no later than the deadline. *)
Lemma refreshLoop_bounds (fuel k : nat) (deadline : Z) (w : World)
    (r : option string * option error) (w' : World) :
  0 < MinTimeout conf ->
  now w <= deadline ->
  refreshLoop backoff conf fuel k deadline w = Some (r, w') ->
  1 <= polls w' - polls w <= (deadline - now w) / MinTimeout conf + 1 /\
  now w <= now w' <= deadline.
Proof.
  intros Hmin. revert k w. induction fuel as [|fuel IH]; intros k w Hnow;
    [discriminate|].
  rewrite (refreshLoop_unfold backoff conf client dep ip conf_refresh). cbv zeta.
  assert (Hq : 0 <= (deadline - now w) / MinTimeout conf) by (apply Z.div_pos; lia).
  destruct (getAnswer client w dep) as [errs|L].
  { intros [= <- <-]. rewrite polls_record_get. simpl. lia. }
  destruct (readsAs conf ip L).
  - destruct (Z.ltb_spec deadline (now w + Z.max (MinTimeout conf) (backoff k)))
      as [Hlt|Hge].
    + intros [= <- <-]. rewrite polls_sleep, polls_record_get. simpl. lia.
    + intros Hrun. apply IH in Hrun; [|simpl; lia].
      rewrite polls_sleep, polls_record_get in Hrun. simpl in Hrun.
      destruct (div_step (deadline - now w) (MinTimeout conf)
                  (Z.max (MinTimeout conf) (backoff k))) as [H0 H1]; try lia.
      replace (deadline - (now w + Z.max (MinTimeout conf) (backoff k)))
        with (deadline - now w - Z.max (MinTimeout conf) (backoff k))
        in Hrun by lia.
      lia.
  - intros [= <- <-]. rewrite polls_record_get. simpl. lia.
Qed.

Hypothesis conf_timeout : Timeout conf = 5 * Minute.
Hypothesis conf_delay : Delay conf = 10 * Second.
Hypothesis conf_interval : MinTimeout conf = 3 * Second.

Lemma WaitForState_unfold (fuel : nat) (w : World) :
  WaitForState backoff conf fuel w =
  refreshLoop backoff conf fuel 0 (now w + 5 * Minute) (sleep (10 * Second) w).
Proof using conf_timeout conf_delay.
  unfold WaitForState. rewrite conf_timeout, conf_delay. reflexivity.
Qed.

(** With the settings of the resource, 97 rounds are enough for the poll
    to return. *)
Lemma WaitForState_returns (fuel : nat) (w : World) :
  (96 < fuel)%nat ->
  exists r w', WaitForState backoff conf fuel w = Some (r, w').
Proof using conf_refresh conf_timeout conf_delay conf_interval.
  intros Hfuel. rewrite WaitForState_unfold.
  apply (refreshLoop_returns backoff conf client dep ip conf_refresh).
  - rewrite conf_interval. reflexivity.
  - rewrite conf_interval. simpl.
    replace (now w + 5 * Minute - (now w + 10 * Second)) with (290 * Second)
      by (unfold Minute; lia).
    change (290 * Second / (3 * Second)) with 96. simpl. lia.
Qed.

(** The shape of every run of the poll that returns: its calls are
    listings; all but the last left the poll pending; the last decides the
    result; there are between 1 and 97 of them and the run ends within the
    timeout. *)
Lemma WaitForState_run (fuel : nat) (w : World) (v : option string)
    (err : option error) (w' : World) :
  WaitForState backoff conf fuel w = Some ((v, err), w') ->
  exists t a rest,
    trace w' = ((t, GetCall dep a) :: rest ++ trace w)%list /\
    Forall (pendingRound conf dep ip) rest /\
    match a with
    | inl errs => v = None /\ err = Some (ApiError (fst errs)) /\ now w' = t
    | inr L =>
        (readsAs conf ip L = settled /\ err = None /\
         v = fst (fst (refreshResult ip (inr L))) /\ now w' = t)
        \/ (readsAs conf ip L = pending /\
            err = Some (TimeoutError (5 * Minute)) /\ v = None /\
            now w' = now w + 5 * Minute)
    end /\
    1 <= polls w' - polls w <= 97 /\
    now w' <= now w + 5 * Minute.
Proof using conf_refresh conf_timeout conf_delay conf_interval.
  rewrite WaitForState_unfold. intros Hrun.
  destruct (refreshLoop_bounds fuel 0%nat (now w + 5 * Minute) (sleep (10 * Second) w)
              (v, err) w') as [Hpolls Htime];
    [rewrite conf_interval; reflexivity | simpl; unfold Minute, Second; lia
    | exact Hrun |].
  apply (refreshLoop_run backoff conf client dep ip conf_refresh) in Hrun
    as (t & a & rest & Htr & Hrest & Hlast).
  exists t, a, rest. split; [exact Htr|]. split; [exact Hrest|].
  rewrite conf_timeout in Hlast. split; [exact Hlast|].
  rewrite conf_interval, polls_sleep in Hpolls. simpl in Hpolls.
  replace (now w + 5 * Minute - (now w + 10 * Second)) with (290 * Second)
    in Hpolls by (unfold Minute; lia).
  change (290 * Second / (3 * Second)) with 96 in Hpolls. split; lia.
Qed.

End RunFacts.

(** ** Timeouts *)

(** With the target IP absent from every listing, a delete does not time
    out: its first poll, ten seconds in, confirms the absence and delete
    succeeds. *)
Lemma delete_of_absent_key_succeeds :
  (forall w, getAnswer emptyClient w "d1" = inr []) /\
  Get officeData "deployment_id" = "d1" /\
  resourceComposeWhitelistDelete (fun _ => 0) 100 officeData emptyClient (mkWorld 0 []) =
    Some ((officeData, None),
          {| now := 10 * Second;
             trace := [(10 * Second, GetCall "d1" (inr []));
                       (0, DeleteCall "d1" "abc123" None)] |}).
Proof. repeat split. Qed.

(** C5, amended: under the settings of the resource (timeout 5 minutes,
    initial delay 10 seconds, minimum interval 3 seconds) the poll of create
    and the poll of delete return once the budget of rounds is at least 97,
    and every run of either has invoked the predicate at least once and at
    most [timeout / minInterval + 1] times.  A run of the poll of create in
    which every listing made lacks the target IP returns no value and an
    error.  A run of the poll of delete in which every listing made holds
    the target IP returns the timeout error, at the timeout; a run of the
    poll of delete whose last listing lacks the target IP returns without
    error. *)
Theorem poll_without_settling (backoff : nat -> Z) (client : Client)
    (dep ip : string) (fuel : nat) (w : World) :
  ((96 < fuel)%nat ->
   (exists r w', WaitForState backoff (createConf client dep ip) fuel w = Some (r, w')) /\
   (exists r w', WaitForState backoff (deleteConf client dep ip) fuel w = Some (r, w')))
  /\
  (forall v err w' new,
     WaitForState backoff (createConf client dep ip) fuel w = Some ((v, err), w') ->
     trace w' = (new ++ trace w)%list ->
     1 <= polls w' - polls w <= (5 * Minute) / (3 * Second) + 1 /\
     (Forall (listsWithout dep ip) new -> v = None /\ exists e, err = Some e))
  /\
  (forall v err w' new,
     WaitForState backoff (deleteConf client dep ip) fuel w = Some ((v, err), w') ->
     trace w' = (new ++ trace w)%list ->
     1 <= polls w' - polls w <= (5 * Minute) / (3 * Second) + 1 /\
     (Forall (listsWith dep ip) new ->
      v = None /\ err = Some (TimeoutError (5 * Minute)) /\
      now w' = now w + 5 * Minute) /\
     (forall t L rest,
        new = (t, GetCall dep (inr L)) :: rest ->
        (forall x, x ∈ L -> IP x <> ip) -> err = None)).
Proof.
  split; [|split].
  - intros Hfuel. split.
    + apply (WaitForState_returns backoff (createConf client dep ip) client dep ip
               eq_refl eq_refl eq_refl eq_refl fuel w Hfuel).
    + apply (WaitForState_returns backoff (deleteConf client dep ip) client dep ip
               eq_refl eq_refl eq_refl eq_refl fuel w Hfuel).
  - intros v err w' new Hrun Htr.
    apply (WaitForState_run backoff (createConf client dep ip) client dep ip
             eq_refl eq_refl eq_refl eq_refl) in Hrun
      as (t & a & rest & Htr' & _ & Hlast & Hpolls & _).
    change ((5 * Minute) / (3 * Second)) with 100. split; [lia|].
    rewrite Htr in Htr'.
    change ((t, GetCall dep a) :: rest ++ trace w)%list
      with (((t, GetCall dep a) :: rest) ++ trace w)%list in Htr'.
    apply app_inv_tail in Htr' as ->. intros Hall.
    apply Forall_cons in Hall as [(L & Hev & Hno) _]. simpl in Hev.
    injection Hev as ->. apply find_matchesIP_none in Hno.
    rewrite readsAs_create, Hno in Hlast.
    destruct Hlast as [(H & _)|(_ & -> & -> & _)]; [discriminate H|]. eauto.
  - intros v err w' new Hrun Htr.
    apply (WaitForState_run backoff (deleteConf client dep ip) client dep ip
             eq_refl eq_refl eq_refl eq_refl) in Hrun
      as (t & a & rest & Htr' & _ & Hlast & Hpolls & _).
    change ((5 * Minute) / (3 * Second)) with 100. split; [lia|].
    rewrite Htr in Htr'.
    change ((t, GetCall dep a) :: rest ++ trace w)%list
      with (((t, GetCall dep a) :: rest) ++ trace w)%list in Htr'.
    apply app_inv_tail in Htr' as ->. split.
    + intros Hall. apply Forall_cons in Hall as [(L & Hev & Hyes) _]. simpl in Hev.
      injection Hev as ->. apply find_matchesIP_some in Hyes as [e He].
      rewrite readsAs_delete, He in Hlast.
      destruct Hlast as [(H & _)|(_ & -> & -> & ->)]; [discriminate H|]. auto.
    + intros t0 L rest0 [= -> -> ->] Hno. apply find_matchesIP_none in Hno.
      rewrite readsAs_delete, Hno in Hlast.
      destruct Hlast as [(_ & -> & _)|(H & _)]; [reflexivity | discriminate H].
Qed.

Lemma poll_without_settling_witness :
  (96 < 97)%nat /\
  (exists w' new,
     WaitForState (fun _ => 0) (createConf emptyClient "d1" "10.0.0.0/24") 97 (mkWorld 0 []) =
       Some ((None, Some (TimeoutError (5 * Minute))), w') /\
     trace w' = (new ++ trace (mkWorld 0 []))%list /\
     Forall (listsWithout "d1" "10.0.0.0/24") new /\
     1 <= polls w' - polls (mkWorld 0 []) <= (5 * Minute) / (3 * Second) + 1 /\
     exists e, Some (TimeoutError (5 * Minute)) = Some e) /\
  (exists w' new,
     WaitForState (fun _ => 0) (deleteConf steadyClient "d1" "10.0.0.0/24") 97 (mkWorld 0 []) =
       Some ((None, Some (TimeoutError (5 * Minute))), w') /\
     trace w' = (new ++ trace (mkWorld 0 []))%list /\
     Forall (listsWith "d1" "10.0.0.0/24") new /\
     now w' = now (mkWorld 0 []) + 5 * Minute).
Proof.
  split; [lia|]. split.
  - let r := eval vm_compute in
      (WaitForState (fun _ => 0) (createConf emptyClient "d1" "10.0.0.0/24") 97
         (mkWorld 0 [])) in
    match r with
    | Some (_, ?w1) =>
        assert (Hrun : WaitForState (fun _ => 0) (createConf emptyClient "d1" "10.0.0.0/24")
                         97 (mkWorld 0 []) =
                       Some ((None, Some (TimeoutError (5 * Minute))), w1))
          by (vm_compute; reflexivity);
        assert (Htr : trace w1 = (trace w1 ++ trace (mkWorld 0 []))%list)
          by (vm_compute; reflexivity);
        assert (Hall : Forall (listsWithout "d1" "10.0.0.0/24") (trace w1))
          by (apply (Forall_forallb _ (listsWithoutb "d1" "10.0.0.0/24") _
                       (listsWithoutb_true _ _)); vm_compute; reflexivity);
        destruct (proj1 (proj2 (poll_without_settling (fun _ => 0) emptyClient "d1"
                                  "10.0.0.0/24" 97 (mkWorld 0 [])))
                    _ _ _ _ Hrun Htr) as [Hpolls Himp];
        exists w1, (trace w1);
        split; [exact Hrun|]; split; [exact Htr|]; split; [exact Hall|];
        split; [exact Hpolls | exact (proj2 (Himp Hall))]
    end.
  - let r := eval vm_compute in
      (WaitForState (fun _ => 0) (deleteConf steadyClient "d1" "10.0.0.0/24") 97
         (mkWorld 0 [])) in
    match r with
    | Some (_, ?w1) =>
        assert (Hrun : WaitForState (fun _ => 0) (deleteConf steadyClient "d1" "10.0.0.0/24")
                         97 (mkWorld 0 []) =
                       Some ((None, Some (TimeoutError (5 * Minute))), w1))
          by (vm_compute; reflexivity);
        assert (Htr : trace w1 = (trace w1 ++ trace (mkWorld 0 []))%list)
          by (vm_compute; reflexivity);
        assert (Hall : Forall (listsWith "d1" "10.0.0.0/24") (trace w1))
          by (apply (Forall_forallb _ (listsWithb "d1" "10.0.0.0/24") _
                       (listsWithb_true _ _)); vm_compute; reflexivity);
        destruct (proj2 (proj2 (poll_without_settling (fun _ => 0) steadyClient "d1"
                                  "10.0.0.0/24" 97 (mkWorld 0 [])))
                    _ _ _ _ Hrun Htr) as (_ & Himp & _);
        exists w1, (trace w1);
        split; [exact Hrun|]; split; [exact Htr|]; split; [exact Hall|];
        exact (proj2 (proj2 (Himp Hall)))
    end.
Defined.

(** ** The delete path *)

Lemma Delete_unfold (backoff : nat -> Z) (fuel : nat) (d : ResourceData)
    (meta : Client) (w : World) :
  resourceComposeWhitelistDelete backoff fuel d meta w =
  match deleteAnswer meta w (Get d "deployment_id") (Id d) with
  | Some errs =>
      Some ((d, Some (Errorf "Error deleting whitelist entry: %s" (errsList errs))),
            record (DeleteCall (Get d "deployment_id") (Id d) (Some errs)) w)
  | None =>
      match WaitForState backoff (deleteConf meta (Get d "deployment_id") (Get d "ip")) fuel
              (record (DeleteCall (Get d "deployment_id") (Id d) None) w) with
      | None => None
      | Some ((_, Some err), w1) => Some ((d, Some err), w1)
      | Some ((_, None), w1) => Some ((d, None), w1)
      end
  end.
Proof.
  unfold resourceComposeWhitelistDelete, bind at 1, DeleteWhitelistForDeployment.
  cbv zeta.
  destruct (deleteAnswer meta w (Get d "deployment_id") (Id d)) as [errs|];
    [reflexivity|].
  unfold bind.
  destruct (WaitForState backoff _ fuel _) as [[[v [err|]] w1]|]; reflexivity.
Qed.

(** After a successful write, delete returns what its poll returns, with
    the resource data as it was. *)
Lemma Delete_poll (backoff : nat -> Z) (fuel : nat) (d : ResourceData)
    (meta : Client) (w : World) (d' : ResourceData) (err : option error) (w' : World) :
  deleteAnswer meta w (Get d "deployment_id") (Id d) = None ->
  resourceComposeWhitelistDelete backoff fuel d meta w = Some ((d', err), w') ->
  d' = d /\
  exists v,
    WaitForState backoff (deleteConf meta (Get d "deployment_id") (Get d "ip")) fuel
      (record (DeleteCall (Get d "deployment_id") (Id d) None) w) = Some ((v, err), w').
Proof.
  intros Hdel. rewrite Delete_unfold, Hdel.
  destruct (WaitForState backoff _ fuel _) as [[[v [e|]] w1]|]; [| |discriminate];
    intros [= <- <- <-]; eauto.
Qed.

Lemma Delete_returns (backoff : nat -> Z) (fuel : nat) (d : ResourceData)
    (meta : Client) (w : World) :
  (96 < fuel)%nat ->
  exists r w', resourceComposeWhitelistDelete backoff fuel d meta w = Some (r, w').
Proof.
  intros Hfuel. rewrite Delete_unfold.
  destruct (deleteAnswer meta w (Get d "deployment_id") (Id d)); [eauto|].
  destruct (WaitForState_returns backoff
              (deleteConf meta (Get d "deployment_id") (Get d "ip")) meta
              (Get d "deployment_id") (Get d "ip") eq_refl eq_refl eq_refl eq_refl fuel
              (record (DeleteCall (Get d "deployment_id") (Id d) None) w) Hfuel)
    as ([v [e|]] & w' & ->); eauto.
Qed.

(** The calls of a delete whose write succeeded: the write, then listings
    that hold the resource's IP, then the call that ends the poll. *)
Lemma Delete_run (backoff : nat -> Z) (fuel : nat) (d : ResourceData)
    (meta : Client) (w : World) (d' : ResourceData) (err : option error) (w' : World) :
  deleteAnswer meta w (Get d "deployment_id") (Id d) = None ->
  resourceComposeWhitelistDelete backoff fuel d meta w = Some ((d', err), w') ->
  d' = d /\
  exists t a rest,
    trace w' = ((t, GetCall (Get d "deployment_id") a) :: rest ++
                (now w, DeleteCall (Get d "deployment_id") (Id d) None) :: trace w)%list /\
    Forall (listsWith (Get d "deployment_id") (Get d "ip")) rest /\
    match a with
    | inl errs => err = Some (ApiError (fst errs)) /\ now w' = t
    | inr L =>
        ((forall x, x ∈ L -> IP x <> Get d "ip") /\ err = None /\ now w' = t)
        \/ ((exists x, x ∈ L /\ IP x = Get d "ip") /\
            err = Some (TimeoutError (5 * Minute)) /\ now w' = now w + 5 * Minute)
    end.
Proof.
  intros Hdel Hrun. destruct (Delete_poll _ _ _ _ _ _ _ _ Hdel Hrun) as [-> [v Hpoll]].
  split; [reflexivity|].
  apply (WaitForState_run backoff (deleteConf meta (Get d "deployment_id") (Get d "ip"))
           meta (Get d "deployment_id") (Get d "ip") eq_refl eq_refl eq_refl eq_refl)
    in Hpoll as (t & a & rest & Htr & Hrest & Hlast & _).
  exists t, a, rest. split; [exact Htr|]. split.
  - eapply Forall_impl; [exact Hrest|]. intros ev. apply pendingRound_delete.
  - destruct a as [errs|L].
    + destruct Hlast as (_ & -> & ->). auto.
    + rewrite readsAs_delete in Hlast.
      destruct (find (matchesIP (Get d "ip")) L) as [e|] eqn:E.
      * right. destruct Hlast as [(H & _)|(_ & -> & _ & ->)]; [discriminate H|].
        split; [apply find_matchesIP_some; eauto | auto].
      * left. destruct Hlast as [(_ & -> & _ & ->)|(H & _)]; [|discriminate H].
        split; [apply find_matchesIP_none, E | auto].
Qed.

(** C3: a delete whose write succeeded returns once its budget of rounds is
    at least 97, and in every run of it the calls after the write are
    listings of the deployment.  Every listing before the last holds an
    entry with the resource's IP: the poll stayed pending on it.  Delete
    reports success exactly when the last listing succeeded and holds no
    entry with that IP.  If the last listing holds an entry with that IP,
    whatever the entry's identifier, delete reports the timeout error.  The
    identifier of the deleted resource occurs in the write only. *)
Theorem delete_poll_matches_ip_only (backoff : nat -> Z) (fuel : nat)
    (d : ResourceData) (meta : Client) (w : World) :
  let dep := Get d "deployment_id" in
  let ip := Get d "ip" in
  deleteAnswer meta w dep (Id d) = None ->
  ((96 < fuel)%nat ->
   exists r w', resourceComposeWhitelistDelete backoff fuel d meta w = Some (r, w'))
  /\
  forall d' err w',
    resourceComposeWhitelistDelete backoff fuel d meta w = Some ((d', err), w') ->
    exists t a rest,
      trace w' = ((t, GetCall dep a) :: rest ++
                  (now w, DeleteCall dep (Id d) None) :: trace w)%list /\
      Forall (listsWith dep ip) rest /\
      (err = None <-> exists L, a = inr L /\ forall x, x ∈ L -> IP x <> ip) /\
      (forall L x, a = inr L -> x ∈ L -> IP x = ip ->
                   err = Some (TimeoutError (5 * Minute))).
Proof.
  intros dep ip Hdel. split; [apply Delete_returns|].
  intros d' err w' Hrun.
  destruct (Delete_run _ _ _ _ _ _ _ _ Hdel Hrun) as (_ & t & a & rest & Htr & Hrest & Hlast).
  exists t, a, rest. split; [exact Htr|]. split; [exact Hrest|].
  destruct a as [errs|L].
  - destruct Hlast as [-> _]. split.
    + split; [discriminate | intros (L & H & _); discriminate H].
    + intros L x H. discriminate H.
  - destruct Hlast as [(Hno & -> & _)|((x & Hx & Hip) & -> & _)].
    + split.
      * split; [eauto | reflexivity].
      * intros L0 x [= <-] Hx Hip. exfalso. exact (Hno x Hx Hip).
    + split.
      * split; [discriminate|]. intros (L0 & [= <-] & Hno). exfalso. exact (Hno x Hx Hip).
      * reflexivity.
Qed.

Lemma delete_poll_matches_ip_only_witness :
  (deleteAnswer reusedClient (mkWorld 0 []) (Get officeData "deployment_id")
     (Id officeData) = None /\ (96 < 97)%nat) /\
  exists w',
    resourceComposeWhitelistDelete (fun _ => 0) 97 officeData reusedClient (mkWorld 0 []) =
      Some ((officeData, Some (TimeoutError (5 * Minute))), w') /\
    exists t a rest,
      trace w' = ((t, GetCall "d1" a) :: rest ++
                  (0, DeleteCall "d1" "abc123" None) :: [])%list /\
      Forall (listsWith "d1" "10.0.0.0/24") rest /\
      (Some (TimeoutError (5 * Minute)) = None <->
       exists L, a = inr L /\ forall x, x ∈ L -> IP x <> "10.0.0.0/24") /\
      (forall L x, a = inr L -> x ∈ L -> IP x = "10.0.0.0/24" ->
                   Some (TimeoutError (5 * Minute)) = Some (TimeoutError (5 * Minute))).
Proof.
  split; [split; [reflexivity | lia]|].
  let r := eval vm_compute in
    (resourceComposeWhitelistDelete (fun _ => 0) 97 officeData reusedClient (mkWorld 0 [])) in
  match r with
  | Some (_, ?w1) =>
      assert (Hrun : resourceComposeWhitelistDelete (fun _ => 0) 97 officeData reusedClient
                       (mkWorld 0 []) =
                     Some ((officeData, Some (TimeoutError (5 * Minute))), w1))
        by (vm_compute; reflexivity);
      exists w1; split; [exact Hrun|];
      exact (proj2 (delete_poll_matches_ip_only (fun _ => 0) 97 officeData reusedClient
                      (mkWorld 0 []) eq_refl) _ _ _ Hrun)
  end.
Defined.

(** ** The create path *)

Lemma Read_unfold (d : ResourceData) (meta : Client) (w : World) :
  resourceComposeWhitelistRead d meta w =
  let a := getAnswer meta w (Get d "deployment_id") in
  Some (match a with
        | inl errs =>
            (d, Some (Errorf "Error querying whitelist entry: %s" (errsList errs)))
        | inr L =>
            match find (matchesID (Id d)) L with
            | Some e => (Set_ (Set_ d "description" (Description e)) "ip" (IP e), None)
            | None => (SetId d "", None)
            end
        end, record (GetCall (Get d "deployment_id") a) w).
Proof.
  unfold resourceComposeWhitelistRead, bind, GetWhitelistForDeployment. cbv zeta.
  destruct (getAnswer meta w (Get d "deployment_id")) as [errs|L]; [reflexivity|].
  destruct (find (matchesID (Id d)) L); reflexivity.
Qed.

Section CreateFacts.

Variable backoff : nat -> Z.
Variable fuel : nat.
Variable d : ResourceData.
Variable meta : Client.

Let dep := Get d "deployment_id".
Let ip := Get d "ip".
Let description := Get d "description".
Let entry := {| ID := ""; IP := ip; Description := description |}.

(** Create, call by call. *)
Lemma Create_unfold (w : World) :
  resourceComposeWhitelistCreate backoff fuel d meta w =
  match addAnswer meta w dep entry with
  | Some errs =>
      Some ((d, Some (Errorf "Error adding whitelist entry: %s" (errsList errs))),
            record (AddCall dep entry (Some errs)) w)
  | None =>
      match WaitForState backoff (createConf meta dep ip) fuel
              (record (AddCall dep entry None) w) with
      | None => None
      | Some ((_, Some err), w1) => Some ((d, Some err), w1)
      | Some ((_, None), w1) =>
          match getAnswer meta w1 dep with
          | inl errs =>
              Some ((d, Some (Errorf "Error querying whitelist entry: %s"
                                (errsList errs))),
                    record (GetCall dep (inl errs)) w1)
          | inr L =>
              match find (matchesDescription description) L with
              | Some e =>
                  resourceComposeWhitelistRead (SetId d (ID e)) meta
                    (record (GetCall dep (inr L)) w1)
              | None =>
                  Some ((d, Some (New "Failed to find newly created whitelist entry")),
                        record (GetCall dep (inr L)) w1)
              end
          end
      end
  end.
Proof.
  unfold resourceComposeWhitelistCreate, bind at 1, AddWhitelistForDeployment.
  fold dep ip description entry. cbv zeta.
  destruct (addAnswer meta w dep entry) as [errs|]; [reflexivity|].
  unfold bind at 1.
  destruct (WaitForState backoff (createConf meta dep ip) fuel
              (record (AddCall dep entry None) w)) as [[[v [err|]] w1]|];
    try reflexivity.
  cbn [snd]. unfold bind, GetWhitelistForDeployment.
  destruct (getAnswer meta w1 dep) as [errs|L]; [reflexivity|].
  destruct (find (matchesDescription description) L); reflexivity.
Qed.

(** A successful poll of create ends on a listing that holds the target
    IP, and returns the identifier of its first entry with that IP. *)
Lemma create_poll_success (w : World) (v : option string) (w1 : World) :
  WaitForState backoff (createConf meta dep ip) fuel w = Some ((v, None), w1) ->
  exists L e rest,
    trace w1 = (now w1, GetCall dep (inr L)) :: rest /\
    firstSuch (matchesIP ip) L e /\ v = Some (ID e).
Proof.
  rewrite WaitForState_create. intros Hrun.
  apply (refreshLoop_run backoff (createConf meta dep ip) meta dep ip eq_refl)
    in Hrun as (t & a & rest & Htr & _ & Hlast).
  destruct a as [errs|L]; [destruct Hlast as (_ & H & _); discriminate H|].
  destruct Hlast as [(Hs & _ & Hv & Ht)|(_ & H & _)]; [|discriminate H].
  rewrite readsAs_create in Hs. unfold refreshResult in Hv.
  destruct (find (matchesIP ip) L) as [e|] eqn:E; [|discriminate Hs].
  exists L, e, (rest ++ trace (sleep (10 * Second) w))%list.
  split; [rewrite Ht; exact Htr|]. split; [apply find_firstSuch, E | exact Hv].
Qed.

End CreateFacts.







(** The poll of create settles on the entry ["a1"], which has the requested
    IP, and returns its identifier; create succeeds and persists ["b2"], the
    identifier of the entry that has the requested description. *)
Lemma create_persists_description_match :
  (exists w1,
     WaitForState (fun _ => 0) (createConf namesakeClient "d1" "10.0.0.0/24") 100
       (record (AddCall "d1" {| ID := ""; IP := "10.0.0.0/24"; Description := "office" |}
                  None) (mkWorld 0 [])) = Some ((Some "a1", None), w1)) /\
  (exists d' w',
     resourceComposeWhitelistCreate (fun _ => 0) 100 newOfficeData namesakeClient
       (mkWorld 0 []) = Some ((d', None), w') /\
     Id d' = "b2" /\ Id d' <> "a1").
Proof.
  split; [eexists; reflexivity|].
  do 2 eexists. split; [vm_compute; reflexivity|]. split; [reflexivity|discriminate].
Qed.

(** C1, amended: when the poll of create succeeds, the value it returns is
    the identifier of the first entry with the requested IP in the listing
    it settled on, which is the last call made.  When create succeeds, its
    last three calls are that listing, the listing it searches by
    description and the listing of the final read; the identifier it
    persists is the IP-matched entry's provided that entry is also the first
    one with the requested description in the second listing and its
    identifier is still listed in the third. *)
Theorem create_identifier (backoff : nat -> Z) (fuel : nat) (d : ResourceData)
    (meta : Client) (w : World) :
  let dep := Get d "deployment_id" in
  let ip := Get d "ip" in
  let description := Get d "description" in
  (forall v w1,
     WaitForState backoff (createConf meta dep ip) fuel w = Some ((v, None), w1) ->
     exists L e rest,
       trace w1 = (now w1, GetCall dep (inr L)) :: rest /\
       firstSuch (matchesIP ip) L e /\ v = Some (ID e))
  /\
  (forall d' w',
     resourceComposeWhitelistCreate backoff fuel d meta w = Some ((d', None), w') ->
     exists t1 L1 e1 t2 L2 t3 L3 rest,
       trace w' = (t3, GetCall dep (inr L3)) :: (t2, GetCall dep (inr L2))
                    :: (t1, GetCall dep (inr L1)) :: rest /\
       firstSuch (matchesIP ip) L1 e1 /\
       (firstSuch (matchesDescription description) L2 e1 ->
        (exists x, x ∈ L3 /\ ID x = ID e1) ->
        Id d' = ID e1)).
Proof.
  intros dep ip description. split.
  - intros v w1. apply create_poll_success.
  - intros d' w'. rewrite Create_unfold. fold dep ip description.
    destruct (addAnswer meta w dep _) as [errs|]; [discriminate|].
    destruct (WaitForState backoff (createConf meta dep ip) fuel _)
      as [[[v [err|]] w1]|] eqn:Hpoll; try discriminate.
    apply create_poll_success in Hpoll as (L1 & e1 & rest & Htr & He1 & _).
    destruct (getAnswer meta w1 dep) as [errs|L2] eqn:HL2; [discriminate|].
    destruct (find (matchesDescription description) L2) as [e2|] eqn:He2;
      [|discriminate].
    rewrite Read_unfold. cbv zeta.
    change (Get (SetId d (ID e2)) "deployment_id") with dep.
    destruct (getAnswer meta (record (GetCall dep (inr L2)) w1) dep)
      as [errs|L3] eqn:HL3; [discriminate|].
    intros [= Hd <-].
    exists (now w1), L1, e1, (now w1), L2, (now w1), L3, rest.
    split; [simpl; rewrite Htr; reflexivity|]. split; [exact He1|].
    intros Hfirst (x & Hx & Hid).
    apply find_firstSuch in Hfirst. rewrite Hfirst in He2. injection He2 as <-.
    change (Id (SetId d (ID e1))) with (ID e1) in Hd.
    destruct (find (matchesID (ID e1)) L3) as [e3|] eqn:He3.
    + injection Hd as <-. reflexivity.
    + exfalso. rewrite find_none_iff in He3. apply He3 in Hx.
      unfold matchesID in Hx. apply String.eqb_neq in Hx. contradiction.
Qed.

Lemma firstSuch_singleton (p : Whitelist -> bool) (x e : Whitelist) :
  firstSuch p [x] e -> e = x.
Proof.
  intros (pre & post & H & _). destruct pre as [|y pre]; simpl in H.
  - injection H as ->. reflexivity.
  - injection H as _ H. destruct pre; discriminate H.
Qed.

Lemma create_identifier_witness :
  resourceComposeWhitelistCreate (fun _ => 0) 100 newOfficeData steadyClient (mkWorld 0 []) =
    Some ((officeData, None),
          {| now := 10 * Second;
             trace := [(10 * Second, GetCall "d1" (inr [officeEntry]));
                       (10 * Second, GetCall "d1" (inr [officeEntry]));
                       (10 * Second, GetCall "d1" (inr [officeEntry]));
                       (0, AddCall "d1" {| ID := ""; IP := "10.0.0.0/24";
                                           Description := "office" |} None)] |}) /\
  exists e1,
    firstSuch (matchesIP "10.0.0.0/24") [officeEntry] e1 /\
    firstSuch (matchesDescription "office") [officeEntry] e1 /\
    Id officeData = ID e1.
Proof.
  assert (Hrun : resourceComposeWhitelistCreate (fun _ => 0) 100 newOfficeData steadyClient
                   (mkWorld 0 []) =
    Some ((officeData, None),
          {| now := 10 * Second;
             trace := [(10 * Second, GetCall "d1" (inr [officeEntry]));
                       (10 * Second, GetCall "d1" (inr [officeEntry]));
                       (10 * Second, GetCall "d1" (inr [officeEntry]));
                       (0, AddCall "d1" {| ID := ""; IP := "10.0.0.0/24";
                                           Description := "office" |} None)] |})).
  { vm_compute. reflexivity. }
  split; [exact Hrun|].
  destruct (proj2 (create_identifier (fun _ => 0) 100 newOfficeData steadyClient
                     (mkWorld 0 [])) _ _ Hrun)
    as (t1 & L1 & e1 & t2 & L2 & t3 & L3 & rest & Htr & He1 & Hid).
  simpl in Htr. injection Htr as _ <- _ <- _ <- _.
  assert (He : e1 = officeEntry) by exact (firstSuch_singleton _ _ _ He1).
  assert (Hdesc : firstSuch (matchesDescription "office") [officeEntry] e1).
  { rewrite He. exists [], []. repeat split. intros x Hx. inversion Hx. }
  exists e1. split; [exact He1|]. split; [exact Hdesc|].
  apply Hid; [exact Hdesc|].
  exists officeEntry. split; [apply elem_of_cons; left; reflexivity | rewrite He; reflexivity].
Defined.

(** The listing create makes after its poll holds an entry with the
    requested description, yet create fails: the listing of the final read
    failed.  The identifier has been set all the same. *)
Lemma create_fails_after_description_match :
  resourceComposeWhitelistCreate (fun _ => 0) 100 newOfficeData flakyClient (mkWorld 0 []) =
    Some ((officeData,
           Some (Errorf "Error querying whitelist entry: %s" ["gone"])),
          {| now := 10 * Second;
             trace := [(10 * Second, GetCall "d1" (inl ("gone", [])));
                       (10 * Second, GetCall "d1" (inr [officeEntry]));
                       (10 * Second, GetCall "d1" (inr [officeEntry]));
                       (0, AddCall "d1" {| ID := ""; IP := "10.0.0.0/24";
                                           Description := "office" |} None)] |}) /\
  Description officeEntry = Get newOfficeData "description".
Proof. split; [vm_compute; reflexivity | reflexivity]. Qed.

(** C10, amended: once the write has succeeded and the poll has settled,
    create lists the whitelist once more.  If that listing fails, create
    returns the querying error.  If no entry of it has the requested
    description, create returns "Failed to find newly created whitelist
    entry" although the poll settled on a listing holding the requested IP.
    If some entry has the requested description, create sets the identifier
    to that of the first such entry, whatever its IP, and returns what the
    final read returns: the querying error when the read's listing fails,
    and success otherwise, with that identifier kept when the read's listing
    holds it and cleared when it does not. *)
Theorem create_after_poll (backoff : nat -> Z) (fuel : nat) (d : ResourceData)
    (meta : Client) (w : World) (v : option string) (w1 : World) :
  let dep := Get d "deployment_id" in
  let ip := Get d "ip" in
  let description := Get d "description" in
  let entry := {| ID := ""; IP := ip; Description := description |} in
  let create := resourceComposeWhitelistCreate backoff fuel d meta w in
  addAnswer meta w dep entry = None ->
  WaitForState backoff (createConf meta dep ip) fuel (record (AddCall dep entry None) w) =
    Some ((v, None), w1) ->
  (exists L1 e1 rest, trace w1 = (now w1, GetCall dep (inr L1)) :: rest /\
                      firstSuch (matchesIP ip) L1 e1)
  /\
  match getAnswer meta w1 dep with
  | inl errs =>
      create = Some ((d, Some (Errorf "Error querying whitelist entry: %s" (errsList errs))),
                     record (GetCall dep (inl errs)) w1)
  | inr L2 =>
      let w2 := record (GetCall dep (inr L2)) w1 in
      ((forall x, x ∈ L2 -> Description x <> description) ->
       create = Some ((d, Some (New "Failed to find newly created whitelist entry")), w2))
      /\
      (forall e2, firstSuch (matchesDescription description) L2 e2 ->
         create = resourceComposeWhitelistRead (SetId d (ID e2)) meta w2 /\
         match getAnswer meta w2 dep with
         | inl errs =>
             create = Some ((SetId d (ID e2),
                             Some (Errorf "Error querying whitelist entry: %s"
                                     (errsList errs))),
                            record (GetCall dep (inl errs)) w2)
         | inr L3 =>
             exists d',
               create = Some ((d', None), record (GetCall dep (inr L3)) w2) /\
               ((exists x, x ∈ L3 /\ ID x = ID e2) -> Id d' = ID e2) /\
               ((forall x, x ∈ L3 -> ID x <> ID e2) -> Id d' = "")
         end)
  end.
Proof.
  intros dep ip description entry create Hadd Hpoll.
  split.
  { apply create_poll_success in Hpoll as (L1 & e1 & rest & Htr & He1 & _). eauto. }
  assert (Hc := Create_unfold backoff fuel d meta w).
  fold create dep ip description entry in Hc. cbv zeta in Hc.
  rewrite Hadd, Hpoll in Hc.
  destruct (getAnswer meta w1 dep) as [errs|L2]; [exact Hc|].
  cbv zeta. split.
  - intros Hno.
    destruct (find (matchesDescription description) L2) as [e|] eqn:E; [|exact Hc].
    exfalso. apply find_firstSuch in E as (pre & post & -> & He & _).
    apply (Hno e); [|apply matchesDescription_true, He].
    apply elem_of_app. right. apply elem_of_cons. left. reflexivity.
  - intros e2 He2. apply find_firstSuch in He2. rewrite He2 in Hc.
    split; [exact Hc|]. rewrite Read_unfold in Hc. cbv zeta in Hc.
    change (Get (SetId d (ID e2)) "deployment_id") with dep in Hc.
    change (Id (SetId d (ID e2))) with (ID e2) in Hc.
    destruct (getAnswer meta (record (GetCall dep (inr L2)) w1) dep) as [errs|L3];
      [exact Hc|].
    destruct (find (matchesID (ID e2)) L3) as [e3|] eqn:E3.
    + eexists. split; [exact Hc|]. split; [reflexivity|].
      intros Hno. exfalso.
      apply find_firstSuch in E3 as (pre & post & -> & He & _).
      apply (Hno e3); [|apply matchesID_true, He].
      apply elem_of_app. right. apply elem_of_cons. left. reflexivity.
    + eexists. split; [exact Hc|]. split; [|reflexivity].
      intros (x & Hx & Hid). exfalso. rewrite find_none_iff in E3.
      apply E3 in Hx. unfold matchesID in Hx. apply String.eqb_neq in Hx.
      contradiction.
Qed.

Lemma create_after_poll_witness :
  (addAnswer namesakeClient (mkWorld 0 []) "d1"
     {| ID := ""; IP := "10.0.0.0/24"; Description := "office" |} = None /\
   WaitForState (fun _ => 0) (createConf namesakeClient "d1" "10.0.0.0/24") 100
     (record (AddCall "d1" {| ID := ""; IP := "10.0.0.0/24"; Description := "office" |}
                None) (mkWorld 0 [])) =
     Some ((Some "a1", None),
           {| now := 10 * Second;
              trace := [(10 * Second, GetCall "d1" (inr [labEntry; namesakeEntry]));
                        (0, AddCall "d1" {| ID := ""; IP := "10.0.0.0/24";
                                            Description := "office" |} None)] |})) /\
  exists d' w',
    resourceComposeWhitelistCreate (fun _ => 0) 100 newOfficeData namesakeClient
      (mkWorld 0 []) = Some ((d', None), w') /\
    Id d' = ID namesakeEntry.
Proof.
  split; [split; reflexivity|].
  destruct (create_after_poll (fun _ => 0) 100 newOfficeData namesakeClient (mkWorld 0 [])
              (Some "a1")
              {| now := 10 * Second;
                 trace := [(10 * Second, GetCall "d1" (inr [labEntry; namesakeEntry]));
                           (0, AddCall "d1" {| ID := ""; IP := "10.0.0.0/24";
                                               Description := "office" |} None)] |}
              eq_refl eq_refl) as [_ H].
  simpl in H. destruct H as [_ H].
  destruct (H namesakeEntry) as [_ (d' & Hrun & Hkept & _)].
  - exists [labEntry], []. repeat split.
    intros x Hx. apply elem_of_cons in Hx as [->|Hx]; [reflexivity | inversion Hx].
  - exists d'. eexists. split; [exact Hrun|]. apply Hkept.
    exists namesakeEntry. split; [|reflexivity].
    apply elem_of_cons. right. apply elem_of_cons. left. reflexivity.
Defined.

(** * Further properties of the resource *)

(** ** Splitting and joining *)

Section SplitJoin.

Variable sep : ascii.

Lemma Join_cons (e : string) (rest : list string) (sepstr : string) :
  rest <> [] -> Join (e :: rest) sepstr = e +:+ sepstr +:+ Join rest sepstr.
Proof. destruct rest; [congruence | reflexivity]. Qed.

(** X1: joining the fields of a split with the separator gives the string
    back. *)
Theorem Join_Split (s : string) :
  Join (gostrings.Split s sep) (String sep EmptyString) = s.
Proof.
  induction s as [|c s IH]; simpl; [reflexivity|].
  destruct (Ascii.eqb_spec c sep) as [->|Hne].
  - rewrite Join_cons by apply Split_not_nil. rewrite IH. reflexivity.
  - destruct (gostrings.Split s sep) as [|f fs] eqn:E.
    + exfalso. exact (Split_not_nil sep s E).
    + destruct fs as [|g gs].
      * simpl in *. rewrite IH. reflexivity.
      * rewrite Join_cons in * by discriminate. simpl. rewrite <- IH. reflexivity.
Qed.

(** X2: a split has one field more than the string has separators, and no
    field holds a separator. *)
Theorem Split_fields (s : string) :
  length (gostrings.Split s sep) = S (CountByte s sep) /\
  Forall (fun f => gostrings.ContainsByte f sep = false) (gostrings.Split s sep).
Proof.
  induction s as [|c s [IHlen IHall]]; simpl.
  - split; [reflexivity | repeat constructor].
  - destruct (Ascii.eqb c sep) eqn:Hc.
    + split; [simpl; rewrite IHlen; reflexivity|].
      constructor; [reflexivity | exact IHall].
    + destruct (gostrings.Split s sep) as [|f fs] eqn:E.
      * exfalso. exact (Split_not_nil sep s E).
      * split; [exact IHlen|].
        apply Forall_cons in IHall as [Hf Hfs].
        constructor; [simpl; rewrite Hc, Hf; reflexivity | exact Hfs].
Qed.

(** X3: splitting the join of a non-empty list of fields without separator
    gives the fields back. *)
Theorem Split_Join (fs : list string) :
  fs <> [] ->
  Forall (fun f => gostrings.ContainsByte f sep = false) fs ->
  gostrings.Split (Join fs (String sep EmptyString)) sep = fs.
Proof.
  induction fs as [|f fs IH]; intros Hne Hall; [congruence|].
  apply Forall_cons in Hall as [Hf Hfs].
  destruct fs as [|g gs].
  - simpl. apply Split_without_sep, Hf.
  - change (Join (f :: g :: gs) (String sep EmptyString))
      with (f +:+ String sep (Join (g :: gs) (String sep EmptyString))).
    rewrite (Split_app sep _ _ Hf). rewrite IH; [reflexivity | discriminate | exact Hfs].
Qed.

End SplitJoin.

Lemma Split_Join_witness :
  (["d1"; "10.0.0.0/24"] <> [] /\
   Forall (fun f => gostrings.ContainsByte f "@" = false) ["d1"; "10.0.0.0/24"]) /\
  gostrings.Split (Join ["d1"; "10.0.0.0/24"] "@") "@" = ["d1"; "10.0.0.0/24"].
Proof.
  assert (Hall : Forall (fun f => gostrings.ContainsByte f "@" = false) ["d1"; "10.0.0.0/24"])
    by (repeat constructor).
  split; [split; [discriminate | exact Hall]|].
  apply (Split_Join "@" ["d1"; "10.0.0.0/24"]); [discriminate | exact Hall].
Defined.

(** ** Read *)

Lemma Id_Set_ (d : ResourceData) (key value : string) : Id (Set_ d key value) = Id d.
Proof. reflexivity. Qed.

(** X4: read always makes exactly one call, the listing of the resource's
    deployment, and takes no time; it returns an error exactly when that
    listing failed, and then hands the resource data back untouched. *)
Theorem read_fails_only_with_listing (d : ResourceData) (meta : Client) (w : World) :
  exists d' err,
    resourceComposeWhitelistRead d meta w =
      Some ((d', err),
            record (GetCall (Get d "deployment_id")
                      (getAnswer meta w (Get d "deployment_id"))) w) /\
    match getAnswer meta w (Get d "deployment_id") with
    | inl errs =>
        err = Some (Errorf "Error querying whitelist entry: %s" (errsList errs)) /\
        d' = d
    | inr _ => err = None
    end.
Proof.
  rewrite Read_unfold. cbv zeta.
  destruct (getAnswer meta w (Get d "deployment_id")) as [errs|L].
  - do 2 eexists. split; [reflexivity|]. split; reflexivity.
  - destruct (find (matchesID (Id d)) L); do 2 eexists; split; reflexivity.
Qed.

(** X5: when the listing holds the resource's identifier, read keeps the
    identifier, overwrites [description] and [ip] with those of the first
    entry that has it, and leaves every other attribute alone. *)
Theorem read_refreshes_from_listing (d : ResourceData) (meta : Client) (w : World)
    (L : list Whitelist) :
  getAnswer meta w (Get d "deployment_id") = inr L ->
  (exists x, x ∈ L /\ ID x = Id d) ->
  exists e d',
    firstSuch (matchesID (Id d)) L e /\
    resourceComposeWhitelistRead d meta w =
      Some ((d', None), record (GetCall (Get d "deployment_id") (inr L)) w) /\
    Id d' = Id d /\
    Get d' "description" = Description e /\
    Get d' "ip" = IP e /\
    forall key, key <> "description" -> key <> "ip" -> Get d' key = Get d key.
Proof.
  intros HL (x & Hx & Hid). rewrite Read_unfold. cbv zeta. rewrite HL.
  destruct (proj2 (find_some_iff (matchesID (Id d)) L)) as [e He].
  { exists x. split; [assumption | apply matchesID_true, Hid]. }
  rewrite He. exists e. eexists. split; [apply find_firstSuch, He|].
  split; [reflexivity|]. split; [reflexivity|]. split; [|split].
  - rewrite Get_Set_ne by discriminate. apply Get_Set_eq.
  - apply Get_Set_eq.
  - intros key Hd Hi. rewrite !Get_Set_ne by congruence. reflexivity.
Qed.

Lemma read_refreshes_from_listing_witness :
  (getAnswer namesakeClient (mkWorld 0 []) (Get (SetId officeData "b2") "deployment_id") =
     inr [labEntry; namesakeEntry] /\
   exists x, x ∈ [labEntry; namesakeEntry] /\ ID x = Id (SetId officeData "b2")) /\
  exists e d',
    firstSuch (matchesID "b2") [labEntry; namesakeEntry] e /\
    resourceComposeWhitelistRead (SetId officeData "b2") namesakeClient (mkWorld 0 []) =
      Some ((d', None), record (GetCall "d1" (inr [labEntry; namesakeEntry])) (mkWorld 0 [])) /\
    Id d' = "b2" /\
    Get d' "description" = Description e /\
    Get d' "ip" = IP e /\
    forall key, key <> "description" -> key <> "ip" ->
                Get d' key = Get (SetId officeData "b2") key.
Proof.
  assert (Hin : exists x, x ∈ [labEntry; namesakeEntry] /\ ID x = Id (SetId officeData "b2")).
  { exists namesakeEntry. split; [|reflexivity].
    apply elem_of_cons. right. apply elem_of_cons. left. reflexivity. }
  split; [split; [reflexivity | exact Hin]|].
  exact (read_refreshes_from_listing (SetId officeData "b2") namesakeClient (mkWorld 0 [])
           [labEntry; namesakeEntry] eq_refl Hin).
Defined.

(** X6: when the listing does not hold the resource's identifier, read
    reports no error: it clears the identifier and leaves the attributes
    alone. *)
Theorem read_clears_missing_identifier (d : ResourceData) (meta : Client) (w : World)
    (L : list Whitelist) :
  getAnswer meta w (Get d "deployment_id") = inr L ->
  (forall x, x ∈ L -> ID x <> Id d) ->
  exists d',
    resourceComposeWhitelistRead d meta w =
      Some ((d', None), record (GetCall (Get d "deployment_id") (inr L)) w) /\
    Id d' = "" /\ attrs d' = attrs d.
Proof.
  intros HL Hno. rewrite Read_unfold. cbv zeta. rewrite HL.
  destruct (find (matchesID (Id d)) L) as [e|] eqn:E.
  - exfalso. apply find_firstSuch in E as (pre & post & -> & He & _).
    apply (Hno e); [|apply matchesID_true, He].
    apply elem_of_app. right. apply elem_of_cons. left. reflexivity.
  - eexists. split; [reflexivity|]. split; reflexivity.
Qed.

Lemma read_clears_missing_identifier_witness :
  (getAnswer emptyClient (mkWorld 0 []) (Get officeData "deployment_id") = inr [] /\
   forall x, x ∈ @nil Whitelist -> ID x <> Id officeData) /\
  exists d',
    resourceComposeWhitelistRead officeData emptyClient (mkWorld 0 []) =
      Some ((d', None), record (GetCall "d1" (inr [])) (mkWorld 0 [])) /\
    Id d' = "" /\ attrs d' = attrs officeData.
Proof.
  assert (Hno : forall x, x ∈ @nil Whitelist -> ID x <> Id officeData)
    by (intros x Hx; inversion Hx).
  split; [split; [reflexivity | exact Hno]|].
  exact (read_clears_missing_identifier officeData emptyClient (mkWorld 0 []) []
           eq_refl Hno).
Defined.

Lemma Set_description_ip_twice (d : ResourceData) (description ip : string) :
  let d1 := Set_ (Set_ d "description" description) "ip" ip in
  Set_ (Set_ d1 "description" description) "ip" ip = d1.
Proof.
  cbv zeta. unfold Set_; simpl. f_equal.
  apply map_eq. intros k. rewrite !lookup_insert.
  repeat case_decide; reflexivity.
Qed.

(** X7: read is idempotent on a listing that holds the resource's
    identifier: a second read that gets the same listing returns the data
    the first read returned. *)
Theorem read_twice (d : ResourceData) (meta : Client) (w : World)
    (L : list Whitelist) (d1 : ResourceData) (err : option error) (w1 : World) :
  getAnswer meta w (Get d "deployment_id") = inr L ->
  (exists x, x ∈ L /\ ID x = Id d) ->
  resourceComposeWhitelistRead d meta w = Some ((d1, err), w1) ->
  getAnswer meta w1 (Get d "deployment_id") = inr L ->
  resourceComposeWhitelistRead d1 meta w1 =
    Some ((d1, None), record (GetCall (Get d "deployment_id") (inr L)) w1).
Proof.
  intros HL Hin Hrun HL1. rewrite Read_unfold in Hrun. cbv zeta in Hrun.
  rewrite HL in Hrun.
  destruct (proj2 (find_some_iff (matchesID (Id d)) L)) as [e He].
  { destruct Hin as (x & Hx & Hid). exists x.
    split; [assumption | apply matchesID_true, Hid]. }
  rewrite He in Hrun. injection Hrun as <- <- <-.
  rewrite Read_unfold. cbv zeta.
  rewrite !Get_Set_ne by discriminate. rewrite !Id_Set_.
  change (getAnswer meta (record (GetCall (Get d "deployment_id") (inr L)) w)
            (Get d "deployment_id") = inr L) in HL1.
  rewrite HL1, He. rewrite (Set_description_ip_twice d). reflexivity.
Qed.

Lemma read_twice_witness :
  (getAnswer steadyClient (mkWorld 0 []) (Get officeData "deployment_id") = inr [officeEntry] /\
   (exists x, x ∈ [officeEntry] /\ ID x = Id officeData) /\
   resourceComposeWhitelistRead officeData steadyClient (mkWorld 0 []) =
     Some ((officeData, None), record (GetCall "d1" (inr [officeEntry])) (mkWorld 0 [])) /\
   getAnswer steadyClient (record (GetCall "d1" (inr [officeEntry])) (mkWorld 0 []))
     (Get officeData "deployment_id") = inr [officeEntry]) /\
  resourceComposeWhitelistRead officeData steadyClient
    (record (GetCall "d1" (inr [officeEntry])) (mkWorld 0 [])) =
    Some ((officeData, None),
          record (GetCall "d1" (inr [officeEntry]))
            (record (GetCall "d1" (inr [officeEntry])) (mkWorld 0 []))).
Proof.
  assert (Hin : exists x, x ∈ [officeEntry] /\ ID x = Id officeData).
  { exists officeEntry. split; [apply elem_of_cons; left; reflexivity | reflexivity]. }
  assert (Hrun : resourceComposeWhitelistRead officeData steadyClient (mkWorld 0 []) =
     Some ((officeData, None), record (GetCall "d1" (inr [officeEntry])) (mkWorld 0 []))).
  { vm_compute. reflexivity. }
  split; [split; [reflexivity | split; [exact Hin | split; [exact Hrun | reflexivity]]]|].
  exact (read_twice officeData steadyClient (mkWorld 0 []) [officeEntry] officeData None
           (record (GetCall "d1" (inr [officeEntry])) (mkWorld 0 []))
           eq_refl Hin Hrun eq_refl).
Defined.

(** ** Delete *)

(** X8: whatever delete returns, it hands the resource data back untouched
    (it never clears the identifier itself).  An error it returns is the
    deleting error built from the errors of the refused write, or the first
    error of the failed listing that was its last call, or the timeout error
    after a last listing that still holds the resource's IP.  When it
    succeeds, the last call it made is a listing in which no entry has the
    resource's IP. *)
Theorem delete_outcome (backoff : nat -> Z) (fuel : nat) (d : ResourceData)
    (meta : Client) (w : World) (d' : ResourceData) (err : option error)
    (w' : World) :
  resourceComposeWhitelistDelete backoff fuel d meta w = Some ((d', err), w') ->
  d' = d /\
  match err with
  | Some e =>
      (exists errs,
         deleteAnswer meta w (Get d "deployment_id") (Id d) = Some errs /\
         e = Errorf "Error deleting whitelist entry: %s" (errsList errs)) \/
      (exists errs rest,
         trace w' = (now w', GetCall (Get d "deployment_id") (inl errs)) :: rest /\
         e = ApiError (fst errs)) \/
      (e = TimeoutError (5 * Minute) /\
       exists t L rest,
         trace w' = (t, GetCall (Get d "deployment_id") (inr L)) :: rest /\
         exists x, x ∈ L /\ IP x = Get d "ip")
  | None =>
      exists L rest,
        trace w' = (now w', GetCall (Get d "deployment_id") (inr L)) :: rest /\
        forall x, x ∈ L -> IP x <> Get d "ip"
  end.
Proof.
  destruct (deleteAnswer meta w (Get d "deployment_id") (Id d)) as [errs|] eqn:Hdel.
  { rewrite Delete_unfold, Hdel. intros [= <- <- <-]. split; [reflexivity|].
    left. eauto. }
  intros Hrun.
  destruct (Delete_run _ _ _ _ _ _ _ _ Hdel Hrun) as (-> & t & a & rest & Htr & _ & Hlast).
  split; [reflexivity|]. destruct a as [errs|L].
  - destruct Hlast as [-> Ht]. right. left. exists errs. eexists.
    split; [rewrite Ht; exact Htr | reflexivity].
  - destruct Hlast as [(Hno & -> & Ht)|(Hyes & -> & _)].
    + exists L. eexists. split; [rewrite Ht; exact Htr | exact Hno].
    + right. right. split; [reflexivity|]. exists t, L. eexists.
      split; [exact Htr | exact Hyes].
Qed.

Lemma delete_outcome_witness :
  resourceComposeWhitelistDelete (fun _ => 0) 100 officeData emptyClient (mkWorld 0 []) =
    Some ((officeData, None),
          {| now := 10 * Second;
             trace := [(10 * Second, GetCall "d1" (inr []));
                       (0, DeleteCall "d1" "abc123" None)] |}) /\
  exists L rest,
    [(10 * Second, GetCall "d1" (inr [])); (0, DeleteCall "d1" "abc123" None)] =
      (10 * Second, GetCall "d1" (inr L)) :: rest /\
    forall x, x ∈ L -> IP x <> "10.0.0.0/24".
Proof.
  assert (Hrun : resourceComposeWhitelistDelete (fun _ => 0) 100 officeData emptyClient
                   (mkWorld 0 []) =
    Some ((officeData, None),
          {| now := 10 * Second;
             trace := [(10 * Second, GetCall "d1" (inr []));
                       (0, DeleteCall "d1" "abc123" None)] |})) by reflexivity.
  split; [exact Hrun|].
  exact (proj2 (delete_outcome (fun _ => 0) 100 officeData emptyClient (mkWorld 0 [])
                  _ _ _ Hrun)).
Defined.

(** X9: a delete whose write succeeded returns once its budget of rounds is
    at least 97; if every listing it made after the write holds an entry
    with the resource's IP, be it one that reuses the IP under another
    identifier, it returns the timeout error five minutes after the write
    and hands the resource data back untouched. *)
Theorem delete_times_out_while_ip_listed (backoff : nat -> Z) (fuel : nat)
    (d : ResourceData) (meta : Client) (w : World) :
  deleteAnswer meta w (Get d "deployment_id") (Id d) = None ->
  ((96 < fuel)%nat ->
   exists r w', resourceComposeWhitelistDelete backoff fuel d meta w = Some (r, w'))
  /\
  forall d' err w' new,
    resourceComposeWhitelistDelete backoff fuel d meta w = Some ((d', err), w') ->
    trace w' = (new ++ (now w, DeleteCall (Get d "deployment_id") (Id d) None)
                       :: trace w)%list ->
    Forall (listsWith (Get d "deployment_id") (Get d "ip")) new ->
    d' = d /\ err = Some (TimeoutError (5 * Minute)) /\ now w' = now w + 5 * Minute.
Proof.
  intros Hdel. split; [apply Delete_returns|].
  intros d' err w' new Hrun Htr Hall.
  destruct (Delete_run _ _ _ _ _ _ _ _ Hdel Hrun) as (-> & t & a & rest & Htr' & _ & Hlast).
  split; [reflexivity|]. rewrite Htr in Htr'.
  change ((t, GetCall (Get d "deployment_id") a) :: rest ++
          (now w, DeleteCall (Get d "deployment_id") (Id d) None) :: trace w)%list
    with (((t, GetCall (Get d "deployment_id") a) :: rest) ++
          (now w, DeleteCall (Get d "deployment_id") (Id d) None) :: trace w)%list in Htr'.
  apply app_inv_tail in Htr' as ->.
  apply Forall_cons in Hall as [(L & Hev & x & Hx & Hip) _]. simpl in Hev.
  injection Hev as ->.
  destruct Hlast as [(Hno & _)|(_ & -> & ->)]; [|auto].
  exfalso. exact (Hno x Hx Hip).
Qed.

Lemma delete_times_out_while_ip_listed_witness :
  (deleteAnswer reusedClient (mkWorld 0 []) (Get officeData "deployment_id")
     (Id officeData) = None /\ (96 < 97)%nat) /\
  exists w' new,
    resourceComposeWhitelistDelete (fun _ => 0) 97 officeData reusedClient (mkWorld 0 []) =
      Some ((officeData, Some (TimeoutError (5 * Minute))), w') /\
    trace w' = (new ++ [(0, DeleteCall "d1" "abc123" None)])%list /\
    Forall (listsWith "d1" "10.0.0.0/24") new /\
    now w' = 0 + 5 * Minute.
Proof.
  split; [split; [reflexivity | lia]|].
  let r := eval vm_compute in
    (resourceComposeWhitelistDelete (fun _ => 0) 97 officeData reusedClient (mkWorld 0 [])) in
  match r with
  | Some (_, ?w1) =>
      assert (Hrun : resourceComposeWhitelistDelete (fun _ => 0) 97 officeData reusedClient
                       (mkWorld 0 []) =
                     Some ((officeData, Some (TimeoutError (5 * Minute))), w1))
        by (vm_compute; reflexivity);
      assert (Htr : trace w1 =
                    (removelast (trace w1) ++ [(0, DeleteCall "d1" "abc123" None)])%list)
        by (vm_compute; reflexivity);
      assert (Hall : Forall (listsWith "d1" "10.0.0.0/24") (removelast (trace w1)))
        by (apply (Forall_forallb _ (listsWithb "d1" "10.0.0.0/24") _
                     (listsWithb_true _ _)); vm_compute; reflexivity);
      exists w1, (removelast (trace w1));
      split; [exact Hrun|]; split; [exact Htr|]; split; [exact Hall|];
      exact (proj2 (proj2 (proj2 (delete_times_out_while_ip_listed (fun _ => 0) 97
                                    officeData reusedClient (mkWorld 0 []) eq_refl)
                             _ _ _ _ Hrun Htr Hall)))
  end.
Defined.

(** ** Create *)

(** X10: when create returns an error, the attributes are as they were, and
    so is the identifier unless the error is the querying error of the
    final read, which comes after the identifier was set. *)
Theorem create_failure_keeps_attributes (backoff : nat -> Z) (fuel : nat)
    (d : ResourceData) (meta : Client) (w : World) (d' : ResourceData) (e : error)
    (w' : World) :
  resourceComposeWhitelistCreate backoff fuel d meta w = Some ((d', Some e), w') ->
  attrs d' = attrs d /\
  (d' = d \/ exists errs, e = Errorf "Error querying whitelist entry: %s" errs).
Proof.
  rewrite Create_unfold.
  destruct (addAnswer meta w _ _) as [errs|].
  { intros [= <- <- <-]. auto. }
  destruct (WaitForState backoff _ fuel _) as [[[v [err|]] w1]|]; [| |discriminate].
  { intros [= <- <- <-]. auto. }
  destruct (getAnswer meta w1 _) as [errs|L2].
  { intros [= <- <- <-]. auto. }
  destruct (find (matchesDescription (Get d "description")) L2) as [e2|].
  - rewrite Read_unfold. cbv zeta.
    destruct (getAnswer meta _ (Get (SetId d (ID e2)) "deployment_id")) as [errs|L3].
    + intros [= <- <- <-]. split; [reflexivity|]. right. eauto.
    + destruct (find (matchesID (Id (SetId d (ID e2)))) L3); discriminate.
  - intros [= <- <- <-]. auto.
Qed.

Lemma create_failure_keeps_attributes_witness :
  resourceComposeWhitelistCreate (fun _ => 0) 100 newOfficeData flakyClient (mkWorld 0 []) =
    Some ((officeData, Some (Errorf "Error querying whitelist entry: %s" ["gone"])),
          {| now := 10 * Second;
             trace := [(10 * Second, GetCall "d1" (inl ("gone", [])));
                       (10 * Second, GetCall "d1" (inr [officeEntry]));
                       (10 * Second, GetCall "d1" (inr [officeEntry]));
                       (0, AddCall "d1" {| ID := ""; IP := "10.0.0.0/24";
                                           Description := "office" |} None)] |}) /\
  attrs officeData = attrs newOfficeData.
Proof.
  assert (Hrun : resourceComposeWhitelistCreate (fun _ => 0) 100 newOfficeData flakyClient
                   (mkWorld 0 []) =
    Some ((officeData, Some (Errorf "Error querying whitelist entry: %s" ["gone"])),
          {| now := 10 * Second;
             trace := [(10 * Second, GetCall "d1" (inl ("gone", [])));
                       (10 * Second, GetCall "d1" (inr [officeEntry]));
                       (10 * Second, GetCall "d1" (inr [officeEntry]));
                       (0, AddCall "d1" {| ID := ""; IP := "10.0.0.0/24";
                                           Description := "office" |} None)] |}))
    by (vm_compute; reflexivity).
  split; [exact Hrun|].
  exact (proj1 (create_failure_keeps_attributes (fun _ => 0) 100 newOfficeData flakyClient
                  (mkWorld 0 []) _ _ _ Hrun)).
Defined.

(** X11: when create succeeds, its last call is a listing, and the data it
    returns reflects that listing, not the request: either the identifier is
    empty and the attributes are as they were, or some listed entry has the
    returned identifier, [ip] and [description].  Attributes other than
    [description] and [ip] are never changed. *)
Theorem create_success_reflects_listing (backoff : nat -> Z) (fuel : nat)
    (d : ResourceData) (meta : Client) (w : World) (d' : ResourceData) (w' : World) :
  resourceComposeWhitelistCreate backoff fuel d meta w = Some ((d', None), w') ->
  exists t L rest,
    trace w' = (t, GetCall (Get d "deployment_id") (inr L)) :: rest /\
    ((Id d' = "" /\ attrs d' = attrs d) \/
     exists e, e ∈ L /\ ID e = Id d' /\ IP e = Get d' "ip" /\
               Description e = Get d' "description") /\
    forall key, key <> "description" -> key <> "ip" -> Get d' key = Get d key.
Proof.
  rewrite Create_unfold.
  destruct (addAnswer meta w _ _) as [errs|]; [discriminate|].
  destruct (WaitForState backoff _ fuel _) as [[[v [err|]] w1]|]; try discriminate.
  destruct (getAnswer meta w1 _) as [errs|L2]; [discriminate|].
  destruct (find (matchesDescription (Get d "description")) L2) as [e2|];
    [|discriminate].
  rewrite Read_unfold. cbv zeta.
  change (Get (SetId d (ID e2)) "deployment_id") with (Get d "deployment_id").
  destruct (getAnswer meta _ (Get d "deployment_id")) as [errs|L3]; [discriminate|].
  change (Id (SetId d (ID e2))) with (ID e2).
  destruct (find (matchesID (ID e2)) L3) as [e3|] eqn:E3; intros [= <- <-].
  - do 3 eexists. split; [reflexivity|].
    apply find_firstSuch in E3 as (pre & post & -> & He & _).
    apply matchesID_true in He. split.
    + right. exists e3. split.
      { apply elem_of_app. right. apply elem_of_cons. left. reflexivity. }
      split; [exact He|]. split.
      * symmetry. apply Get_Set_eq.
      * symmetry. rewrite Get_Set_ne by discriminate. apply Get_Set_eq.
    + intros key Hd Hi. rewrite !Get_Set_ne by congruence. reflexivity.
  - do 3 eexists. split; [reflexivity|]. split; [left; split; reflexivity|].
    reflexivity.
Qed.

Lemma create_success_reflects_listing_witness :
  (exists w',
     resourceComposeWhitelistCreate (fun _ => 0) 100 newOfficeData namesakeClient
       (mkWorld 0 []) =
       Some ((Set_ (SetId officeData "b2") "ip" "192.168.0.0/16", None), w')) /\
  forall key, key <> "description" -> key <> "ip" ->
    Get (Set_ (SetId officeData "b2") "ip" "192.168.0.0/16") key = Get newOfficeData key.
Proof.
  assert (Hrun : resourceComposeWhitelistCreate (fun _ => 0) 100 newOfficeData namesakeClient
                   (mkWorld 0 []) =
     Some ((Set_ (SetId officeData "b2") "ip" "192.168.0.0/16", None),
           {| now := 10 * Second;
              trace := [(10 * Second, GetCall "d1" (inr [labEntry; namesakeEntry]));
                        (10 * Second, GetCall "d1" (inr [labEntry; namesakeEntry]));
                        (10 * Second, GetCall "d1" (inr [labEntry; namesakeEntry]));
                        (0, AddCall "d1" {| ID := ""; IP := "10.0.0.0/24";
                                            Description := "office" |} None)] |}))
    by (vm_compute; reflexivity).
  split; [eexists; exact Hrun|].
  destruct (create_success_reflects_listing (fun _ => 0) 100 newOfficeData namesakeClient
              (mkWorld 0 []) _ _ Hrun) as (t & L & rest & _ & _ & Hkeys).
  exact Hkeys.
Defined.

Lemma Create_returns (backoff : nat -> Z) (fuel : nat) (d : ResourceData)
    (meta : Client) (w : World) :
  (96 < fuel)%nat ->
  exists r w', resourceComposeWhitelistCreate backoff fuel d meta w = Some (r, w').
Proof.
  intros Hfuel. rewrite Create_unfold.
  destruct (addAnswer meta w _ _); [eauto|].
  destruct (WaitForState_returns backoff
              (createConf meta (Get d "deployment_id") (Get d "ip")) meta
              (Get d "deployment_id") (Get d "ip") eq_refl eq_refl eq_refl eq_refl fuel
              (record (AddCall (Get d "deployment_id")
                         {| ID := ""; IP := Get d "ip";
                            Description := Get d "description" |} None) w) Hfuel)
    as ([v [e|]] & w1 & ->); [eauto|].
  destruct (getAnswer meta w1 _); [eauto|].
  destruct (find (matchesDescription (Get d "description")) l); [|eauto].
  rewrite Read_unfold. eauto.
Qed.

Lemma in_new_part {A : Type} (new extra mid base : list A) (x : A) :
  (new ++ base = extra ++ x :: mid ++ base)%list -> x ∈ new.
Proof.
  intros H.
  replace (extra ++ x :: mid ++ base)%list with ((extra ++ x :: mid) ++ base)%list in H
    by (rewrite <- app_assoc; reflexivity).
  apply app_inv_tail in H as ->.
  apply elem_of_app. right. apply elem_of_cons. left. reflexivity.
Qed.

(** X12: a create whose write succeeded returns once its budget of rounds
    is at least 97; if every call it made after the write is a listing that
    lacks the requested IP, it does not succeed: it returns an error and
    hands the resource data back untouched, without identifier. *)
Theorem create_fails_while_ip_missing (backoff : nat -> Z) (fuel : nat)
    (d : ResourceData) (meta : Client) (w : World) :
  let dep := Get d "deployment_id" in
  let ip := Get d "ip" in
  let entry := {| ID := ""; IP := ip; Description := Get d "description" |} in
  addAnswer meta w dep entry = None ->
  ((96 < fuel)%nat ->
   exists r w', resourceComposeWhitelistCreate backoff fuel d meta w = Some (r, w'))
  /\
  forall d' err w' new,
    resourceComposeWhitelistCreate backoff fuel d meta w = Some ((d', err), w') ->
    trace w' = (new ++ (now w, AddCall dep entry None) :: trace w)%list ->
    Forall (listsWithout dep ip) new ->
    d' = d /\ exists e, err = Some e.
Proof.
  intros dep ip entry Hadd. split; [apply Create_returns|].
  intros d' err w' new Hrun Htr Hall.
  rewrite Create_unfold in Hrun. fold dep ip entry in Hrun. rewrite Hadd in Hrun.
  destruct (WaitForState backoff (createConf meta dep ip) fuel _)
    as [[[v [e|]] w1]|] eqn:Hpoll; [| |discriminate].
  { injection Hrun as <- <- <-. eauto. }
  exfalso.
  apply (WaitForState_run backoff (createConf meta dep ip) meta dep ip
           eq_refl eq_refl eq_refl eq_refl) in Hpoll
    as (t & a & rest & Htr1 & _ & Hlast & _).
  destruct a as [errs|L]; [destruct Hlast as (_ & H & _); discriminate H|].
  destruct Hlast as [(Hs & _)|(_ & H & _)]; [|discriminate H].
  rewrite readsAs_create in Hs.
  destruct (find (matchesIP ip) L) as [e1|] eqn:E1; [|discriminate Hs].
  assert (Hin : (t, GetCall dep (inr L)) ∈ new).
  { simpl in Htr1.
    destruct (getAnswer meta w1 dep) as [errs|L2].
    - injection Hrun as <- <- <-. simpl in Htr. rewrite Htr1 in Htr.
      symmetry in Htr. apply (in_new_part new [_] rest _ _ Htr).
    - destruct (find (matchesDescription (Get d "description")) L2) as [e2|].
      + rewrite Read_unfold in Hrun. injection Hrun as _ <-. simpl in Htr.
        rewrite Htr1 in Htr. symmetry in Htr. apply (in_new_part new [_; _] rest _ _ Htr).
      + injection Hrun as <- <- <-. simpl in Htr. rewrite Htr1 in Htr.
        symmetry in Htr. apply (in_new_part new [_] rest _ _ Htr). }
  rewrite Forall_forall in Hall. destruct (Hall _ Hin) as (L' & Hev & Hno).
  simpl in Hev. injection Hev as <-.
  apply find_matchesIP_none in Hno. congruence.
Qed.

Lemma create_fails_while_ip_missing_witness :
  (addAnswer emptyClient (mkWorld 0 []) (Get newOfficeData "deployment_id")
     {| ID := ""; IP := Get newOfficeData "ip";
        Description := Get newOfficeData "description" |} = None /\ (96 < 97)%nat) /\
  exists err w' new,
    resourceComposeWhitelistCreate (fun _ => 0) 97 newOfficeData emptyClient (mkWorld 0 []) =
      Some ((newOfficeData, err), w') /\
    trace w' = (new ++ [(0, AddCall "d1" {| ID := ""; IP := "10.0.0.0/24";
                                           Description := "office" |} None)])%list /\
    Forall (listsWithout "d1" "10.0.0.0/24") new /\
    exists e, err = Some e.
Proof.
  split; [split; [reflexivity | lia]|].
  let r := eval vm_compute in
    (resourceComposeWhitelistCreate (fun _ => 0) 97 newOfficeData emptyClient (mkWorld 0 [])) in
  match r with
  | Some ((_, ?e1), ?w1) =>
      assert (Hrun : resourceComposeWhitelistCreate (fun _ => 0) 97 newOfficeData emptyClient
                       (mkWorld 0 []) = Some ((newOfficeData, e1), w1))
        by (vm_compute; reflexivity);
      assert (Htr : trace w1 =
                    (removelast (trace w1) ++
                     [(0, AddCall "d1" {| ID := ""; IP := "10.0.0.0/24";
                                          Description := "office" |} None)])%list)
        by (vm_compute; reflexivity);
      assert (Hall : Forall (listsWithout "d1" "10.0.0.0/24") (removelast (trace w1)))
        by (apply (Forall_forallb _ (listsWithoutb "d1" "10.0.0.0/24") _
                     (listsWithoutb_true _ _)); vm_compute; reflexivity);
      exists e1, w1, (removelast (trace w1));
      split; [exact Hrun|]; split; [exact Htr|]; split; [exact Hall|];
      exact (proj2 (proj2 (create_fails_while_ip_missing (fun _ => 0) 97 newOfficeData
                             emptyClient (mkWorld 0 []) eq_refl)
                      _ _ _ _ Hrun Htr Hall))
  end.
Defined.

(** ** Import *)

(** X13: import reads only the first two fields of the identifier: whatever
    follows a second ['@'] is ignored. *)
Theorem import_ignores_later_fields (d : ResourceData) (meta : Client) (w : World)
    (dep ip rest : string) :
  gostrings.ContainsByte dep "@" = false ->
  gostrings.ContainsByte ip "@" = false ->
  Id d = dep +:+ "@" +:+ ip +:+ "@" +:+ rest ->
  resourceComposeWhitelistImport d meta w =
  resourceComposeWhitelistImport (SetId d (dep +:+ "@" +:+ ip)) meta w.
Proof.
  intros Hdep Hip Hid.
  assert (H1 : exists fs, gostrings.Split (Id d) "@" = dep :: ip :: fs).
  { rewrite Hid. change ("@" +:+ ip +:+ "@" +:+ rest) with (String "@" (ip +:+ String "@" rest)).
    rewrite (Split_app _ _ _ Hdep), (Split_app _ _ _ Hip). eauto. }
  assert (H2 : gostrings.Split (Id (SetId d (dep +:+ "@" +:+ ip))) "@" = [dep; ip]).
  { simpl. change ("@" +:+ ip) with (String "@" ip).
    rewrite (Split_app _ _ _ Hdep), (Split_without_sep _ _ Hip). reflexivity. }
  destruct H1 as [fs H1]. unfold resourceComposeWhitelistImport.
  rewrite H1, H2. unfold index; simpl. unfold bind, GetWhitelistForDeployment.
  destruct (getAnswer meta w dep) as [errs|L]; [reflexivity|].
  destruct (find (matchesIP ip) L); reflexivity.
Qed.

Lemma import_ignores_later_fields_witness :
  (gostrings.ContainsByte "d1" "@" = false /\
   gostrings.ContainsByte "10.0.0.0/24" "@" = false /\
   Id (mkResourceData "d1@10.0.0.0/24@extra@text" ∅) =
     "d1" +:+ "@" +:+ "10.0.0.0/24" +:+ "@" +:+ "extra@text") /\
  resourceComposeWhitelistImport (mkResourceData "d1@10.0.0.0/24@extra@text" ∅)
    steadyClient (mkWorld 0 []) =
  resourceComposeWhitelistImport
    (SetId (mkResourceData "d1@10.0.0.0/24@extra@text" ∅) ("d1" +:+ "@" +:+ "10.0.0.0/24"))
    steadyClient (mkWorld 0 []).
Proof.
  split; [repeat split|].
  apply (import_ignores_later_fields (mkResourceData "d1@10.0.0.0/24@extra@text" ∅)
           steadyClient (mkWorld 0 []) "d1" "10.0.0.0/24" "extra@text"); reflexivity.
Defined.

(** X14: whenever import returns, it has made exactly one call, the listing
    of the deployment named by the identifier's first field, and it returns
    either one resource and no error or no resource and an error. *)
Theorem import_result_shape (d : ResourceData) (meta : Client) (w : World)
    (r : option (list ResourceData) * option error) (w' : World) :
  resourceComposeWhitelistImport d meta w = Some (Returns r, w') ->
  exists dep fs,
    gostrings.Split (Id d) "@" = dep :: fs /\
    w' = record (GetCall dep (getAnswer meta w dep)) w /\
    ((exists d', r = (Some [d'], None)) \/ (exists e, r = (None, Some e))).
Proof.
  unfold resourceComposeWhitelistImport.
  destruct (gostrings.Split (Id d) "@") as [|dep [|ip fs]] eqn:E;
    unfold index; simpl; try discriminate.
  unfold bind, GetWhitelistForDeployment.
  destruct (getAnswer meta w dep) as [errs|L] eqn:HL.
  - intros [= <- <-]. exists dep. eexists. split; [reflexivity|].
    split; [rewrite HL; reflexivity|]. right. eauto.
  - destruct (find (matchesIP ip) L); intros [= <- <-]; exists dep; eexists;
      (split; [reflexivity|]); (split; [rewrite HL; reflexivity|]); eauto.
Qed.

Lemma import_result_shape_witness :
  resourceComposeWhitelistImport (mkResourceData "d1@10.0.0.9/32" ∅) steadyClient
    (mkWorld 0 []) =
    Some (Returns (None, Some (Errorf "Whitelist item not found" [])),
          record (GetCall "d1" (inr [officeEntry])) (mkWorld 0 [])) /\
  exists dep fs,
    gostrings.Split "d1@10.0.0.9/32" "@" = dep :: fs /\
    record (GetCall "d1" (inr [officeEntry])) (mkWorld 0 []) =
      record (GetCall dep (getAnswer steadyClient (mkWorld 0 []) dep)) (mkWorld 0 []).
Proof.
  assert (Hrun : resourceComposeWhitelistImport (mkResourceData "d1@10.0.0.9/32" ∅)
                   steadyClient (mkWorld 0 []) =
    Some (Returns (None, Some (Errorf "Whitelist item not found" [])),
          record (GetCall "d1" (inr [officeEntry])) (mkWorld 0 []))) by reflexivity.
  split; [exact Hrun|].
  destruct (import_result_shape (mkResourceData "d1@10.0.0.9/32" ∅) steadyClient
              (mkWorld 0 []) _ _ Hrun) as (dep & fs & Hsplit & Hw & _).
  exists dep, fs. split; [exact Hsplit | exact Hw].
Defined.

Lemma Set_after_import (d : ResourceData) (dep description ip id : string) :
  let d' := SetId (Set_ (Set_ (Set_ d "deployment_id" dep) "description" description)
                     "ip" ip) id in
  Set_ (Set_ d' "description" description) "ip" ip = d'.
Proof.
  cbv zeta. unfold Set_, SetId; simpl. f_equal.
  apply map_eq. intros k. rewrite !lookup_insert.
  repeat case_decide; reflexivity.
Qed.

(** X15: a resource that import returned is a fixed point of read: if the
    next listing is the one import saw and the matched entry is the first
    one with its identifier, read returns the imported data unchanged and
    without error. *)
Theorem read_after_import (d : ResourceData) (meta : Client) (w : World)
    (dep ip : string) (L : list Whitelist) (e : Whitelist) :
  Id d = dep +:+ "@" +:+ ip ->
  gostrings.ContainsByte dep "@" = false ->
  gostrings.ContainsByte ip "@" = false ->
  getAnswer meta w dep = inr L ->
  firstSuch (matchesIP ip) L e ->
  firstSuch (matchesID (ID e)) L e ->
  getAnswer meta (record (GetCall dep (inr L)) w) dep = inr L ->
  exists d' w1,
    resourceComposeWhitelistImport d meta w = Some (Returns (Some [d'], None), w1) /\
    resourceComposeWhitelistRead d' meta w1 =
      Some ((d', None), record (GetCall dep (inr L)) w1).
Proof.
  intros Hid Hdep Hip HL He Hfirst HL1.
  assert (Hsplit : gostrings.Split (Id d) "@" = [dep; ip]).
  { rewrite Hid. change ("@" +:+ ip) with (String "@" ip).
    rewrite (Split_app _ _ _ Hdep), (Split_without_sep _ _ Hip). reflexivity. }
  apply find_firstSuch in He. apply find_firstSuch in Hfirst.
  unfold resourceComposeWhitelistImport. rewrite Hsplit.
  unfold index; simpl. unfold bind, GetWhitelistForDeployment. rewrite HL, He.
  do 2 eexists. split; [reflexivity|].
  rewrite Read_unfold. cbv zeta. rewrite Get_SetId.
  rewrite !Get_Set_ne by discriminate. rewrite Get_Set_eq.
  rewrite HL1. cbn [Id SetId]. rewrite Hfirst.
  rewrite (Set_after_import d dep (Description e) (IP e) (ID e)). reflexivity.
Qed.

Lemma read_after_import_witness :
  (Id (mkResourceData "d1@10.0.0.0/24" ∅) = "d1" +:+ "@" +:+ "10.0.0.0/24" /\
   gostrings.ContainsByte "d1" "@" = false /\
   gostrings.ContainsByte "10.0.0.0/24" "@" = false /\
   getAnswer steadyClient (mkWorld 0 []) "d1" = inr [officeEntry] /\
   firstSuch (matchesIP "10.0.0.0/24") [officeEntry] officeEntry /\
   firstSuch (matchesID (ID officeEntry)) [officeEntry] officeEntry /\
   getAnswer steadyClient (record (GetCall "d1" (inr [officeEntry])) (mkWorld 0 [])) "d1" =
     inr [officeEntry]) /\
  exists d' w1,
    resourceComposeWhitelistImport (mkResourceData "d1@10.0.0.0/24" ∅) steadyClient
      (mkWorld 0 []) = Some (Returns (Some [d'], None), w1) /\
    resourceComposeWhitelistRead d' steadyClient w1 =
      Some ((d', None), record (GetCall "d1" (inr [officeEntry])) w1).
Proof.
  assert (Hip : firstSuch (matchesIP "10.0.0.0/24") [officeEntry] officeEntry).
  { exists [], []. repeat split. intros x Hx. inversion Hx. }
  assert (Hidf : firstSuch (matchesID (ID officeEntry)) [officeEntry] officeEntry).
  { exists [], []. repeat split. intros x Hx. inversion Hx. }
  split; [repeat split; assumption|].
  apply (read_after_import (mkResourceData "d1@10.0.0.0/24" ∅) steadyClient (mkWorld 0 [])
           "d1" "10.0.0.0/24" [officeEntry] officeEntry); try reflexivity; assumption.
Defined.

(** ** The answers of the polling predicate *)

(** X16: every invocation of the whitelist predicate returns, having made
    one listing; its state is ["existing"] when it carries a value and empty
    when it does not, and an error comes with neither value nor state. *)
Theorem refresh_answer_invariant (client : Client) (dep ip : string) (w : World) :
  exists v state err w',
    whitelistCompletedRefreshFunc client dep ip w = Some ((v, state, err), w') /\
    polls w' = polls w + 1 /\
    match v with
    | Some _ => state = "existing" /\ err = None
    | None => state = ""
    end.
Proof.
  rewrite refresh_unfold. unfold refreshResult.
  destruct (getAnswer client w dep) as [errs|L].
  - do 4 eexists. split; [reflexivity|]. split; [apply polls_record_get | reflexivity].
  - destruct (find (matchesIP ip) L); do 4 eexists;
      (split; [reflexivity|]); (split; [apply polls_record_get|]); auto.
Qed.

(** * Properties of the vendored Spanner messages *)

Section SpannerGetters.

Variables Timestamp Duration : Type.

(** X17: of the five getters of the timestamp bound of a read-only
    transaction at most one returns something else than its zero value,
    whatever the message, nil included. *)
Theorem read_only_getters_exclusive
    (m : option (spanner.TransactionOptions_ReadOnly Timestamp Duration)) :
  (countSet [spanner.TransactionOptions_ReadOnly_GetStrong m;
             isSet (spanner.TransactionOptions_ReadOnly_GetMinReadTimestamp m);
             isSet (spanner.TransactionOptions_ReadOnly_GetMaxStaleness m);
             isSet (spanner.TransactionOptions_ReadOnly_GetReadTimestamp m);
             isSet (spanner.TransactionOptions_ReadOnly_GetExactStaleness m)]
   <= 1)%nat.
Proof.
  destruct m as [[[[x|x|x|x|x]|] r]|]; try destruct x; cbn; lia.
Qed.

(** X18: at most one of [GetReadWrite] and [GetReadOnly] of transaction
    options is non-nil, and at most one of [GetSingleUse], [GetId] and
    [GetBegin] of a transaction selector is non-nil (non-empty for the
    identifier), whatever the message, nil included. *)
Theorem options_and_selector_getters_exclusive
    (m : option (spanner.TransactionOptions Timestamp Duration))
    (s : option (spanner.TransactionSelector Timestamp Duration)) :
  (countSet [isSet (spanner.TransactionOptions_GetReadWrite m);
             isSet (spanner.TransactionOptions_GetReadOnly m)] <= 1)%nat /\
  (countSet [isSet (spanner.TransactionSelector_GetSingleUse s);
             nonEmpty (spanner.TransactionSelector_GetId s);
             isSet (spanner.TransactionSelector_GetBegin s)] <= 1)%nat.
Proof.
  split.
  - destruct m as [[[[x|x]|]]|]; try destruct x; cbn; lia.
  - destruct s as [[[[x|x|x]|]]|]; try destruct x; cbn; lia.
Qed.

End SpannerGetters.

Section SpannerSizes.

Variables Timestamp Duration : Type.
Variable P : spanner.Proto Timestamp Duration.

(** What the sizers rely on: the library's size functions count what its
    encoders write. *)
Hypothesis varint_size :
  forall x b, spanner.len P (spanner.EncodeVarint P x b) =
              spanner.len P b + spanner.SizeVarint P x.
Hypothesis small_varint_size :
  forall x, 0 <= x < 128 -> spanner.SizeVarint P x = 1.
Hypothesis message_size :
  forall m b b',
    spanner.EncodeMessage P m b = (None, b') ->
    spanner.len P b' =
    spanner.len P b + spanner.SizeVarint P (spanner.uint64 (spanner.Size P m)) +
    spanner.Size P m.
Hypothesis raw_bytes_size :
  forall bs b,
    spanner.len P (spanner.EncodeRawBytes P bs b) =
    spanner.len P b +
    spanner.SizeVarint P (spanner.uint64 (Z.of_nat (length bs))) +
    Z.of_nat (length bs).

Lemma encodeMessageField_size (tag : Z) (x : spanner.Message Timestamp Duration)
    (b b' : spanner.Buffer P) :
  spanner.encodeMessageField P tag x b = (None, b') ->
  spanner.len P b' = spanner.len P b + spanner.sizeMessageField P tag x 0.
Proof using varint_size message_size.
  unfold spanner.encodeMessageField, spanner.sizeMessageField. cbv zeta.
  destruct (spanner.EncodeMessage P x _) as [[err|] b1] eqn:E; [discriminate|].
  intros [= <-]. rewrite (message_size _ _ _ E), varint_size. lia.
Qed.

(** X19: when the marshaler of the mode of transaction options succeeds, it
    has written exactly as many bytes as the sizer announces. *)
Theorem options_sizer_counts_marshaler
    (m : spanner.TransactionOptions Timestamp Duration) (b b' : spanner.Buffer P) :
  spanner._TransactionOptions_OneofMarshaler P m b = (None, b') ->
  spanner.len P b' = spanner.len P b + spanner._TransactionOptions_OneofSizer P m.
Proof using varint_size message_size.
  unfold spanner._TransactionOptions_OneofMarshaler,
    spanner._TransactionOptions_OneofSizer. cbv zeta.
  destruct (spanner.Mode m) as [[x|x]|].
  - apply encodeMessageField_size.
  - apply encodeMessageField_size.
  - intros [= <-]. lia.
Qed.

(** X20: when the marshaler of the timestamp bound of a read-only
    transaction succeeds, it has written exactly as many bytes as the sizer
    announces; for [strong] that is the key and one byte. *)
Theorem read_only_sizer_counts_marshaler
    (m : spanner.TransactionOptions_ReadOnly Timestamp Duration)
    (b b' : spanner.Buffer P) :
  spanner._TransactionOptions_ReadOnly_OneofMarshaler P m b = (None, b') ->
  spanner.len P b' =
  spanner.len P b + spanner._TransactionOptions_ReadOnly_OneofSizer P m.
Proof using varint_size small_varint_size message_size.
  unfold spanner._TransactionOptions_ReadOnly_OneofMarshaler,
    spanner._TransactionOptions_ReadOnly_OneofSizer. cbv zeta.
  destruct (spanner.TimestampBound m) as [[x|x|x|x|x]|];
    try apply encodeMessageField_size.
  - intros [= <-]. rewrite !varint_size.
    rewrite (small_varint_size (if x then 1 else 0)) by (destruct x; lia). lia.
  - intros [= <-]. lia.
Qed.

(** X21: when the marshaler of a transaction selector succeeds, it has
    written exactly as many bytes as the sizer announces. *)
Theorem selector_sizer_counts_marshaler
    (m : spanner.TransactionSelector Timestamp Duration) (b b' : spanner.Buffer P) :
  spanner._TransactionSelector_OneofMarshaler P m b = (None, b') ->
  spanner.len P b' = spanner.len P b + spanner._TransactionSelector_OneofSizer P m.
Proof using varint_size message_size raw_bytes_size.
  unfold spanner._TransactionSelector_OneofMarshaler,
    spanner._TransactionSelector_OneofSizer. cbv zeta.
  destruct (spanner.Selector m) as [[x|x|x]|];
    try apply encodeMessageField_size.
  - intros [= <-]. rewrite raw_bytes_size, varint_size. lia.
  - intros [= <-]. lia.
Qed.

End SpannerSizes.

(** The recording library satisfies what the sizers rely on. *)
Lemma recording_len_app (b : list (spanner.Item unit unit)) (i : spanner.Item unit unit) :
  spanner.len (spanner.recordingProto tt tt) (b ++ [i])%list =
  spanner.len (spanner.recordingProto tt tt) b + Z.of_nat (length (spanner.itemBytes i)).
Proof.
  unfold spanner.len; simpl. rewrite map_app, concat_app, length_app. simpl.
  rewrite app_nil_r. lia.
Qed.

Lemma recording_varint_size (x : Z) (b : list (spanner.Item unit unit)) :
  spanner.len (spanner.recordingProto tt tt)
    (spanner.EncodeVarint (spanner.recordingProto tt tt) x b) =
  spanner.len (spanner.recordingProto tt tt) b +
  spanner.SizeVarint (spanner.recordingProto tt tt) x.
Proof. simpl. rewrite recording_len_app. reflexivity. Qed.

Lemma recording_message_size (m : spanner.Message unit unit)
    (b b' : list (spanner.Item unit unit)) :
  spanner.EncodeMessage (spanner.recordingProto tt tt) m b = (None, b') ->
  spanner.len (spanner.recordingProto tt tt) b' =
  spanner.len (spanner.recordingProto tt tt) b +
  spanner.SizeVarint (spanner.recordingProto tt tt)
    (spanner.uint64 (spanner.Size (spanner.recordingProto tt tt) m)) +
  spanner.Size (spanner.recordingProto tt tt) m.
Proof.
  simpl. destruct (spanner.isNilMessage m); [discriminate|].
  intros [= <-]. rewrite recording_len_app. simpl. lia.
Qed.

Lemma recording_raw_bytes_size (bs : list Byte.byte) (b : list (spanner.Item unit unit)) :
  spanner.len (spanner.recordingProto tt tt)
    (spanner.EncodeRawBytes (spanner.recordingProto tt tt) bs b) =
  spanner.len (spanner.recordingProto tt tt) b +
  spanner.SizeVarint (spanner.recordingProto tt tt) (spanner.uint64 (Z.of_nat (length bs))) +
  Z.of_nat (length bs).
Proof. simpl. rewrite recording_len_app. simpl. lia. Qed.

Lemma options_sizer_counts_marshaler_witness :
  spanner.len (spanner.recordingProto tt tt)
    [spanner.ItemVarint 10;
     spanner.ItemMessage
       (spanner.MsgReadWrite (Some spanner.mkTransactionOptions_ReadWrite))] =
  spanner.len (spanner.recordingProto tt tt) [] +
  spanner._TransactionOptions_OneofSizer (spanner.recordingProto tt tt)
    {| spanner.Mode := Some (spanner.TransactionOptions_ReadWrite_
                               (Some spanner.mkTransactionOptions_ReadWrite)) |}.
Proof.
  apply (options_sizer_counts_marshaler unit unit (spanner.recordingProto tt tt)
           recording_varint_size recording_message_size).
  reflexivity.
Defined.

Lemma read_only_sizer_counts_marshaler_witness :
  spanner.len (spanner.recordingProto tt tt) [spanner.ItemVarint 8; spanner.ItemVarint 1] =
  spanner.len (spanner.recordingProto tt tt) [] +
  spanner._TransactionOptions_ReadOnly_OneofSizer (spanner.recordingProto tt tt)
    {| spanner.TimestampBound := Some (spanner.TransactionOptions_ReadOnly_Strong true);
       spanner.ReturnReadTimestamp := false |}.
Proof.
  apply (read_only_sizer_counts_marshaler unit unit (spanner.recordingProto tt tt)
           recording_varint_size (fun x _ => eq_refl) recording_message_size).
  reflexivity.
Defined.

Lemma selector_sizer_counts_marshaler_witness :
  spanner.len (spanner.recordingProto tt tt)
    [spanner.ItemVarint 18; spanner.ItemBytes [Byte.x01; Byte.x02]] =
  spanner.len (spanner.recordingProto tt tt) [] +
  spanner._TransactionSelector_OneofSizer (spanner.recordingProto tt tt)
    {| spanner.Selector := Some (spanner.TransactionSelector_Id [Byte.x01; Byte.x02]) |}.
Proof.
  apply (selector_sizer_counts_marshaler unit unit (spanner.recordingProto tt tt)
           recording_varint_size recording_message_size recording_raw_bytes_size).
  reflexivity.
Defined.

(** Case analysis on what the decoders return. *)
Ltac destruct_decoders :=
  repeat match goal with
         | |- context [spanner.DecodeVarint ?P ?b] =>
             destruct (spanner.DecodeVarint P b) as [[? ?] ?]
         | |- context [spanner.DecodeRawBytes ?P ?f ?b] =>
             destruct (spanner.DecodeRawBytes P f b) as [[? ?] ?]
         | |- context [spanner.DecodeMessage_ReadWrite ?P ?b] =>
             destruct (spanner.DecodeMessage_ReadWrite P b) as [[? ?] ?]
         | |- context [spanner.DecodeMessage_ReadOnly ?P ?b] =>
             destruct (spanner.DecodeMessage_ReadOnly P b) as [[? ?] ?]
         | |- context [spanner.DecodeMessage_TransactionOptions ?P ?b] =>
             destruct (spanner.DecodeMessage_TransactionOptions P b) as [[? ?] ?]
         | |- context [spanner.DecodeMessage_Timestamp ?P ?b] =>
             destruct (spanner.DecodeMessage_Timestamp P b) as [[? ?] ?]
         | |- context [spanner.DecodeMessage_Duration ?P ?b] =>
             destruct (spanner.DecodeMessage_Duration P b) as [[? ?] ?]
         end.

Section SpannerUnmarshalers.

Variables Timestamp Duration : Type.
Variable P : spanner.Proto Timestamp Duration.

(** X22: the unmarshaler of the timestamp bound knows exactly the tags 1 to
    5.  On another tag it reports no error and touches neither the message
    nor the buffer.  On a known tag with the wrong wire type (tag 1 wants a
    varint, the others bytes) it reports the wire-type error, again without
    touching anything.  On a known tag with the right wire type it sets the
    timestamp bound, even when the decoder reports an error.  It never
    changes [ReturnReadTimestamp]. *)
Theorem read_only_unmarshaler_dispatch
    (m : spanner.TransactionOptions_ReadOnly Timestamp Duration) (tag wire : Z)
    (b : spanner.Buffer P) :
  let '(ok, err, m', b') :=
    spanner._TransactionOptions_ReadOnly_OneofUnmarshaler P m tag wire b in
  let wanted := if tag =? 1 then spanner.WireVarint P else spanner.WireBytes P in
  (ok = true <-> 1 <= tag <= 5) /\
  spanner.ReturnReadTimestamp m' = spanner.ReturnReadTimestamp m /\
  (ok = false -> err = None /\ m' = m /\ b' = b) /\
  (ok = true -> wire <> wanted ->
   err = Some (spanner.ErrInternalBadWireType P) /\ m' = m /\ b' = b) /\
  (ok = true -> wire = wanted -> spanner.TimestampBound m' <> None).
Proof.
  unfold spanner._TransactionOptions_ReadOnly_OneofUnmarshaler.
  repeat match goal with
         | |- context [?x =? ?y] => destruct (Z.eqb_spec x y); cbn [negb]
         end;
    destruct_decoders;
    cbv zeta; cbn [spanner.setTimestampBound spanner.ReturnReadTimestamp
                   spanner.TimestampBound];
    repeat split; intros; try congruence; try lia.
Qed.

(** X23: the unmarshalers of the transaction mode and of the transaction
    selector know exactly the tags 1 and 2, respectively 1 to 3, all of wire
    type bytes.  On another tag they report no error and touch neither the
    message nor the buffer; on a known tag with another wire type they
    report the wire-type error, again without touching anything; on a known
    tag with the right wire type they set the oneof, even when the decoder
    reports an error. *)
Theorem mode_and_selector_unmarshaler_dispatch
    (m : spanner.TransactionOptions Timestamp Duration)
    (s : spanner.TransactionSelector Timestamp Duration) (tag wire : Z)
    (b : spanner.Buffer P) :
  (let '(ok, err, m', b') :=
     spanner._TransactionOptions_OneofUnmarshaler P m tag wire b in
   (ok = true <-> 1 <= tag <= 2) /\
   (ok = false -> err = None /\ m' = m /\ b' = b) /\
   (ok = true -> wire <> spanner.WireBytes P ->
    err = Some (spanner.ErrInternalBadWireType P) /\ m' = m /\ b' = b) /\
   (ok = true -> wire = spanner.WireBytes P -> spanner.Mode m' <> None))
  /\
  (let '(ok, err, s', b') :=
     spanner._TransactionSelector_OneofUnmarshaler P s tag wire b in
   (ok = true <-> 1 <= tag <= 3) /\
   (ok = false -> err = None /\ s' = s /\ b' = b) /\
   (ok = true -> wire <> spanner.WireBytes P ->
    err = Some (spanner.ErrInternalBadWireType P) /\ s' = s /\ b' = b) /\
   (ok = true -> wire = spanner.WireBytes P -> spanner.Selector s' <> None)).
Proof.
  unfold spanner._TransactionOptions_OneofUnmarshaler,
    spanner._TransactionSelector_OneofUnmarshaler.
  split;
    repeat match goal with
           | |- context [?x =? ?y] => destruct (Z.eqb_spec x y); cbn [negb]
           end;
    destruct_decoders;
    cbv zeta; cbn [spanner.Mode spanner.Selector];
    repeat split; intros; try congruence; try lia.
Qed.

End SpannerUnmarshalers.

(** ** Round trips through the recording library *)

Section SpannerRoundTrip.

Variables Timestamp Duration : Type.
Variable zeroTimestamp : Timestamp.
Variable zeroDuration : Duration.

Local Notation "'R'" := (spanner.recordingProto zeroTimestamp zeroDuration).

(** X24: with the library that records its calls, whatever the marshaler of
    the transaction mode writes can be read back: it writes nothing when the
    mode is unset, and otherwise a key followed by items from which the
    unmarshaler, called with the tag and wire type of that key on any
    message, rebuilds the marshaled message, consuming all items without
    error. *)
Theorem options_round_trip (m m0 : spanner.TransactionOptions Timestamp Duration)
    (b0 b : list (spanner.Item Timestamp Duration)) :
  spanner._TransactionOptions_OneofMarshaler R m b0 = (None, b) ->
  exists written,
    b = (b0 ++ written)%list /\
    match written with
    | [] => spanner.Mode m = None
    | spanner.ItemVarint k :: rest =>
        spanner._TransactionOptions_OneofUnmarshaler R m0 (Z.shiftr k 3) (Z.land k 7) rest =
          (true, None, m, [])
    | _ => False
    end.
Proof.
  destruct m as [[[[x|]|[x|]]|]]; cbn; try discriminate; intros [= <-].
  - eexists. split; [rewrite <- app_assoc; reflexivity|]. reflexivity.
  - eexists. split; [rewrite <- app_assoc; reflexivity|]. reflexivity.
  - exists []. split; [rewrite app_nil_r; reflexivity | reflexivity].
Qed.

(** X25: the same for the timestamp bound of a read-only transaction: the
    unmarshaler rebuilds the marshaled timestamp bound, [strong] with its
    boolean, and keeps the [ReturnReadTimestamp] of the message it is called
    on. *)
Theorem read_only_round_trip
    (m m0 : spanner.TransactionOptions_ReadOnly Timestamp Duration)
    (b0 b : list (spanner.Item Timestamp Duration)) :
  spanner._TransactionOptions_ReadOnly_OneofMarshaler R m b0 = (None, b) ->
  exists written,
    b = (b0 ++ written)%list /\
    match written with
    | [] => spanner.TimestampBound m = None
    | spanner.ItemVarint k :: rest =>
        spanner._TransactionOptions_ReadOnly_OneofUnmarshaler R m0
          (Z.shiftr k 3) (Z.land k 7) rest =
          (true, None,
           {| spanner.TimestampBound := spanner.TimestampBound m;
              spanner.ReturnReadTimestamp := spanner.ReturnReadTimestamp m0 |}, [])
    | _ => False
    end.
Proof.
  destruct m as [[[[|]|[x|]|[x|]|[x|]|[x|]]|] r]; cbn; try discriminate;
    intros [= <-];
    try (eexists; split; [rewrite <- app_assoc; reflexivity|]; reflexivity).
  exists []. split; [rewrite app_nil_r; reflexivity | reflexivity].
Qed.

(** X26: the same for the transaction selector, the identifier case
    carrying its bytes. *)
Theorem selector_round_trip (m m0 : spanner.TransactionSelector Timestamp Duration)
    (b0 b : list (spanner.Item Timestamp Duration)) :
  spanner._TransactionSelector_OneofMarshaler R m b0 = (None, b) ->
  exists written,
    b = (b0 ++ written)%list /\
    match written with
    | [] => spanner.Selector m = None
    | spanner.ItemVarint k :: rest =>
        spanner._TransactionSelector_OneofUnmarshaler R m0 (Z.shiftr k 3) (Z.land k 7) rest =
          (true, None, m, [])
    | _ => False
    end.
Proof.
  destruct m as [[[[x|]|x|[x|]]|]]; cbn; try discriminate; intros [= <-];
    try (eexists; split; [rewrite <- app_assoc; reflexivity|]; reflexivity).
  exists []. split; [rewrite app_nil_r; reflexivity | reflexivity].
Qed.

End SpannerRoundTrip.

Lemma options_round_trip_witness :
  exists written,
    [spanner.ItemVarint 18;
     spanner.ItemMessage
       (spanner.MsgReadOnly
          (Some {| spanner.TimestampBound := Some (spanner.TransactionOptions_ReadOnly_Strong true);
                   spanner.ReturnReadTimestamp := true |}))] = ([] ++ written)%list /\
    match written with
    | [] => False
    | spanner.ItemVarint k :: rest =>
        spanner._TransactionOptions_OneofUnmarshaler (spanner.recordingProto tt tt)
          {| spanner.Mode := None |} (Z.shiftr k 3) (Z.land k 7) rest =
          (true, None,
           {| spanner.Mode :=
                Some (spanner.TransactionOptions_ReadOnly_
                        (Some {| spanner.TimestampBound :=
                                   Some (spanner.TransactionOptions_ReadOnly_Strong true);
                                 spanner.ReturnReadTimestamp := true |})) |}, [])
    | _ => False
    end.
Proof.
  destruct (options_round_trip unit unit tt tt
              {| spanner.Mode :=
                   Some (spanner.TransactionOptions_ReadOnly_
                           (Some {| spanner.TimestampBound :=
                                      Some (spanner.TransactionOptions_ReadOnly_Strong true);
                                    spanner.ReturnReadTimestamp := true |})) |}
              {| spanner.Mode := None |} [] _ eq_refl) as (written & Hb & Hread).
  exists written. split; [exact Hb|].
  destruct written as [|[k|msg|bs] rest]; try exact Hread. discriminate Hread.
Defined.

Lemma read_only_round_trip_witness :
  exists written,
    [spanner.ItemVarint 8; spanner.ItemVarint 1] = ([] ++ written)%list /\
    match written with
    | spanner.ItemVarint k :: rest =>
        spanner._TransactionOptions_ReadOnly_OneofUnmarshaler (spanner.recordingProto tt tt)
          {| spanner.TimestampBound := None; spanner.ReturnReadTimestamp := true |}
          (Z.shiftr k 3) (Z.land k 7) rest =
          (true, None,
           {| spanner.TimestampBound := Some (spanner.TransactionOptions_ReadOnly_Strong true);
              spanner.ReturnReadTimestamp := true |}, [])
    | _ => False
    end.
Proof.
  destruct (read_only_round_trip unit unit tt tt
              {| spanner.TimestampBound := Some (spanner.TransactionOptions_ReadOnly_Strong true);
                 spanner.ReturnReadTimestamp := false |}
              {| spanner.TimestampBound := None; spanner.ReturnReadTimestamp := true |}
              [] _ eq_refl) as (written & Hb & Hread).
  exists written. split; [exact Hb|].
  destruct written as [|[k|msg|bs] rest]; try exact Hread. discriminate Hread.
Defined.

Lemma selector_round_trip_witness :
  exists written,
    [spanner.ItemVarint 18; spanner.ItemBytes [Byte.x01; Byte.x02]] = ([] ++ written)%list /\
    match written with
    | spanner.ItemVarint k :: rest =>
        spanner._TransactionSelector_OneofUnmarshaler (spanner.recordingProto tt tt)
          {| spanner.Selector := None |} (Z.shiftr k 3) (Z.land k 7) rest =
          (true, None,
           {| spanner.Selector := Some (spanner.TransactionSelector_Id [Byte.x01; Byte.x02]) |},
           [])
    | _ => False
    end.
Proof.
  destruct (selector_round_trip unit unit tt tt
              {| spanner.Selector := Some (spanner.TransactionSelector_Id [Byte.x01; Byte.x02]) |}
              {| spanner.Selector := None |} [] _ eq_refl) as (written & Hb & Hread).
  exists written. split; [exact Hb|].
  destruct written as [|[k|msg|bs] rest]; try exact Hread. discriminate Hread.
Defined.
